(** * TaxiHub driver service: validation, directory service and persistence port

    A shallow embedding of the Go sources of [driver-service]:

    - [internal/models]      requests, their validation tags, [Driver],
                             [IsValidTaxiType];
    - [internal/repository]  [MongoDriverRepository] over one collection;
    - [internal/service]     [driverService] and its error variables;
    - [internal/handlers]    the status code each handler answers with.

    Go's [float64] is the kernel's binary64 [float]; Go's [int] is a 64-bit
    two's-complement integer, carried as a [Z] and wrapped after arithmetic;
    a Go [string] is a sequence of bytes, carried as a [string] of [ascii].
    The two libraries the sources call but do not contain are embedded from
    their documentation: the struct-tag validator (module [Validator]) and
    the document store (module [Mongo]). *)

From Stdlib Require Import ZArith List String Ascii Bool Lia Sorted.
From Stdlib Require Import Floats.
Import ListNotations.

Set Implicit Arguments.

(* ================================================================= *)
(** ** Go integers *)

Module GoInt.

Local Open Scope Z_scope.

Definition min_int : Z := - 2 ^ 63.
Definition max_int : Z := 2 ^ 63 - 1.

Definition in_range (z : Z) : Prop := min_int <= z <= max_int.

(** The value an [int] holds after an arithmetic result [z]. *)
Definition wrap (z : Z) : Z := (z + 2 ^ 63) mod 2 ^ 64 - 2 ^ 63.

Definition sub (a b : Z) : Z := wrap (a - b).
Definition mul (a b : Z) : Z := wrap (a * b).

End GoInt.

(* ================================================================= *)
(** ** Go float64 *)

Module Float64.

Local Open Scope float_scope.

(** [x > y] and [x >= y] of Go are the mirrored primitives. *)
Definition gtb (x y : float) : bool := y <? x.
Definition geb (x y : float) : bool := y <=? x.

(** [strconv.ParseFloat] of a decimal integer literal of a struct tag. *)
Definition of_Z (z : Z) : float :=
  match z with
  | Z0 => 0
  | Zpos _ => of_uint63 (Uint63.of_Z z)
  | Zneg p => - of_uint63 (Uint63.of_Z (Zpos p))
  end.

(** [math.Float64bits(x) == 0]: [x] is the positive zero, the one value
    all of whose 64 bits are zero. *)
Definition bits_are_zero (x : float) : bool :=
  match classify x with
  | PZero => true
  | _ => false
  end.

(** [float64(n)] for a non-negative integer below [2^63]. *)
Definition of_int (n : Z) : float := of_Z n.

(** [int(math.Ceil(x))] for a finite [x]: the least integer not below the
    value [±m * 2^e] that [x] denotes. *)
Definition ceil_to_int (x : float) : Z :=
  match Prim2SF x with
  | S754_finite s m e =>
      let v := if s then Zneg m else Zpos m in
      if (0 <=? e)%Z then (v * 2 ^ e)%Z
      else (- ((- v) / 2 ^ (- e)))%Z
  | _ => 0%Z
  end.

End Float64.

(* ================================================================= *)
(** ** Go strings: bytes, UTF-8 rune count, hexadecimal *)

Module GoString.

Local Open Scope N_scope.

Definition bytes (s : string) : list N := map N_of_ascii (list_ascii_of_string s).

Definition between (lo hi c : N) : bool := (lo <=? c) && (c <=? hi).

(** Continuation-byte range accepted after the lead byte [c]
    ([first] and [acceptRanges] of package [unicode/utf8]); [None] marks a
    byte that cannot start a sequence. The number is the sequence's size. *)
Definition lead (c : N) : option (nat * N * N) :=
  if between 194 223 c then Some (2%nat, 128, 191)
  else if c =? 224 then Some (3%nat, 160, 191)
  else if between 225 236 c then Some (3%nat, 128, 191)
  else if c =? 237 then Some (3%nat, 128, 159)
  else if between 238 239 c then Some (3%nat, 128, 191)
  else if c =? 240 then Some (4%nat, 144, 191)
  else if between 241 243 c then Some (4%nat, 128, 191)
  else if c =? 244 then Some (4%nat, 128, 143)
  else None.

(** Bytes the next rune of [l] takes; an ill-formed sequence takes one. *)
Definition rune_width (l : list N) : nat :=
  match l with
  | [] => 1
  | c :: tl =>
      if c <? 128 then 1%nat
      else match lead c with
           | None => 1%nat
           | Some (size, lo, hi) =>
               if (List.length tl <? size - 1)%nat then 1%nat
               else match tl with
                    | c1 :: tl1 =>
                        if negb (between lo hi c1) then 1%nat
                        else if (size =? 2)%nat then 2%nat
                        else match tl1 with
                             | c2 :: tl2 =>
                                 if negb (between 128 191 c2) then 1%nat
                                 else if (size =? 3)%nat then 3%nat
                                 else match tl2 with
                                      | c3 :: _ =>
                                          if negb (between 128 191 c3) then 1%nat
                                          else 4%nat
                                      | [] => 1%nat
                                      end
                             | [] => 1%nat
                             end
                    | [] => 1%nat
                    end
           end
  end.

Fixpoint count_runes (fuel : nat) (l : list N) : Z :=
  match fuel, l with
  | S fuel', _ :: _ => (1 + count_runes fuel' (skipn (rune_width l) l))%Z
  | _, _ => 0%Z
  end.

(** [utf8.RuneCountInString]. Every step consumes at least one byte, so
    the number of bytes is fuel enough. *)
Definition RuneCountInString (s : string) : Z :=
  let l := bytes s in count_runes (List.length l) l.

(** *** encoding/hex *)

Definition hex_digit (n : N) : ascii :=
  ascii_of_N (if n <? 10 then 48 + n else 87 + n).

Definition hex_value (c : ascii) : option N :=
  let n := N_of_ascii c in
  if between 48 57 n then Some (n - 48)
  else if between 97 102 n then Some (n - 87)
  else if between 65 70 n then Some (n - 55)
  else None.

Fixpoint EncodeToString (bs : list ascii) : string :=
  match bs with
  | [] => EmptyString
  | b :: tl =>
      let n := N_of_ascii b in
      String (hex_digit (n / 16)) (String (hex_digit (n mod 16)) (EncodeToString tl))
  end.

Fixpoint DecodeString (s : string) : option (list ascii) :=
  match s with
  | EmptyString => Some []
  | String h (String l tl) =>
      match hex_value h, hex_value l, DecodeString tl with
      | Some a, Some b, Some r => Some (ascii_of_N (16 * a + b) :: r)
      | _, _, _ => None
      end
  | String _ EmptyString => None
  end.

End GoString.

(* ================================================================= *)
(** ** Go errors *)

Module GoErrors.

(** The package-level error variables of the sources and of the two
    libraries; each is one value, compared by identity. *)
Inductive error_var : Set :=
| service_ErrDriverNotFound
| service_ErrDriverAlreadyExists
| service_ErrInvalidID
| service_ErrInvalidPlate
| service_ErrInvalidLocation
| service_ErrInvalidTaxiType
| service_ErrValidationFailed
| service_ErrRepositoryError
| repository_ErrDriverNotFound
| repository_ErrDriverAlreadyExists
| repository_ErrInvalidID
| repository_ErrInvalidCoordinates
| repository_ErrInvalidRadius
| repository_ErrDatabaseError
| mongo_ErrNoDocuments
| primitive_ErrInvalidHex.

Scheme Equality for error_var.

(** What the store's driver reports for a failed command. *)
Inductive mongo_failure : Set :=
| DuplicateKey            (* a write error of code 11000 *)
| CommandFailed.          (* any other server or network failure *)

Inductive error : Type :=
| Var (v : error_var)
| New (text : string)                    (* [errors.New] at a call site *)
| Errorf (text : string)                 (* [fmt.Errorf] without [%w] *)
| Wrapf (text : string) (err : error)    (* [fmt.Errorf(text + "%w", err)] *)
| ValidationErrors (fields : list (string * string))  (* field, tag *)
| InvalidByteError                       (* of [encoding/hex] *)
| WriteException (f : mongo_failure).

(** [errors.Is(err, target)] for a target that is an error variable:
    [err] or an error it wraps is that very value. An error made by
    [errors.New] or [fmt.Errorf] at a call site is a value of its own and
    is no variable. *)
Fixpoint Is (err : error) (target : error_var) : bool :=
  match err with
  | Var v => error_var_beq v target
  | Wrapf _ inner => Is inner target
  | _ => false
  end.

Definition IsDuplicateKeyError (err : error) : bool :=
  match err with
  | WriteException DuplicateKey => true
  | _ => false
  end.

Inductive result (A : Type) : Type :=
| Ok (a : A)
| Err (e : error).

Arguments Err {A} e.

Definition is_ok {A} (r : result A) : bool :=
  match r with Ok _ => true | Err _ => false end.

End GoErrors.

Import GoErrors.

(* ================================================================= *)
(** ** github.com/go-playground/validator/v10 *)

Module Validator.

Local Open Scope float_scope.

Inductive value : Type :=
| VString (s : string)
| VFloat (x : float).

Inductive tag : Type :=
| required
| omitempty
| min (p : Z)
| max (p : Z)
| oneof (allowed : list string)
| custom (name : string) (fn : string -> bool).

Definition tag_name (t : tag) : string :=
  match t with
  | required => "required"
  | omitempty => "omitempty"
  | min _ => "min"
  | max _ => "max"
  | oneof _ => "oneof"
  | custom name _ => name
  end.

(** A struct field: its name, whether its Go type is a pointer, the value
    it holds ([None] for a nil pointer) and its [validate] tags in order. *)
Record field : Type := Field {
  field_name : string;
  is_pointer : bool;
  holds : option value;
  tags : list tag
}.

(** [reflect.Value.IsZero], which [hasValue] of v10.16.0 calls: [""] for
    a string; for a float, under the Go 1.21 the module declares, the value
    whose bits are all zero, so that [-0.0] is not the zero value. *)
Definition IsZero (v : value) : bool :=
  match v with
  | VString s => String.eqb s ""
  | VFloat x => Float64.bits_are_zero x
  end.

(** [hasValue]: what [required] and [omitempty] test. A field reached
    through a non-nil pointer has a value whatever it points to. *)
Definition hasValue (ptr : bool) (v : value) : bool :=
  if ptr then true else negb (IsZero v).

Definition passes (t : tag) (ptr : bool) (v : value) : bool :=
  match t, v with
  | required, _ => hasValue ptr v
  | omitempty, _ => true
  | min p, VString s => (p <=? GoString.RuneCountInString s)%Z
  | min p, VFloat x => Float64.geb x (Float64.of_Z p)
  | max p, VString s => (GoString.RuneCountInString s <=? p)%Z
  | max p, VFloat x => x <=? Float64.of_Z p
  | oneof allowed, VString s => existsb (String.eqb s) allowed
  | oneof _, VFloat _ => false
  | custom _ fn, VString s => fn s
  | custom _ _, VFloat _ => false
  end.

(** The tags of one field, left to right; the first that fails is the
    field's error. [omitempty] ends the field when it has no value. *)
Fixpoint run_tags (name : string) (ptr : bool) (v : option value)
         (ts : list tag) : option (string * string) :=
  match ts with
  | [] => None
  | t :: rest =>
      match v, t with
      | None, omitempty => None
      | None, _ => Some (name, tag_name t)
      | Some x, omitempty =>
          if hasValue ptr x then run_tags name ptr v rest else None
      | Some x, _ =>
          if passes t ptr x then run_tags name ptr v rest
          else Some (name, tag_name t)
      end
  end.

Definition field_errors (f : field) : list (string * string) :=
  match run_tags (field_name f) (is_pointer f) (holds f) (tags f) with
  | Some e => [e]
  | None => []
  end.

(** [validate.Struct]: every field is visited; [nil] when none fails. *)
Definition Struct (fields : list field) : option error :=
  match flat_map field_errors fields with
  | [] => None
  | errs => Some (ValidationErrors errs)
  end.

End Validator.

(* ================================================================= *)
(** ** internal/models *)

(** [time.Time]: nanoseconds since the Unix epoch. *)
Definition Time : Type := Z.

(** [primitive.ObjectID]: twelve bytes. *)
Definition ObjectID : Type := list ascii.

Module primitive.

Definition NilObjectID : ObjectID := repeat Ascii.zero 12.

Definition oid_eqb (a b : ObjectID) : bool :=
  String.eqb (string_of_list_ascii a) (string_of_list_ascii b).

Definition IsZero (id : ObjectID) : bool := oid_eqb id NilObjectID.

Definition Hex (id : ObjectID) : string := GoString.EncodeToString id.

Definition ObjectIDFromHex (s : string) : result ObjectID :=
  if negb (String.length s =? 24)%nat then Err (Var primitive_ErrInvalidHex)
  else match GoString.DecodeString s with
       | Some bs => Ok bs
       | None => Err InvalidByteError
       end.

End primitive.

Module Location.
Record t : Type := mk { Lat : float; Lon : float }.
End Location.

Module Driver.

Record t : Type := mk {
  ID : ObjectID;
  FirstName : string;
  LastName : string;
  Plate : string;
  TaxiType : string;
  CarBrand : string;
  CarModel : string;
  Location : Location.t;
  CreatedAt : Time;
  UpdatedAt : Time
}.

Definition set_ID v d :=
  mk v (FirstName d) (LastName d) (Plate d) (TaxiType d) (CarBrand d)
     (CarModel d) (Location d) (CreatedAt d) (UpdatedAt d).
Definition set_FirstName v d :=
  mk (ID d) v (LastName d) (Plate d) (TaxiType d) (CarBrand d)
     (CarModel d) (Location d) (CreatedAt d) (UpdatedAt d).
Definition set_LastName v d :=
  mk (ID d) (FirstName d) v (Plate d) (TaxiType d) (CarBrand d)
     (CarModel d) (Location d) (CreatedAt d) (UpdatedAt d).
Definition set_Plate v d :=
  mk (ID d) (FirstName d) (LastName d) v (TaxiType d) (CarBrand d)
     (CarModel d) (Location d) (CreatedAt d) (UpdatedAt d).
Definition set_TaxiType v d :=
  mk (ID d) (FirstName d) (LastName d) (Plate d) v (CarBrand d)
     (CarModel d) (Location d) (CreatedAt d) (UpdatedAt d).
Definition set_CarBrand v d :=
  mk (ID d) (FirstName d) (LastName d) (Plate d) (TaxiType d) v
     (CarModel d) (Location d) (CreatedAt d) (UpdatedAt d).
Definition set_CarModel v d :=
  mk (ID d) (FirstName d) (LastName d) (Plate d) (TaxiType d) (CarBrand d)
     v (Location d) (CreatedAt d) (UpdatedAt d).
Definition set_Location v d :=
  mk (ID d) (FirstName d) (LastName d) (Plate d) (TaxiType d) (CarBrand d)
     (CarModel d) v (CreatedAt d) (UpdatedAt d).
Definition set_CreatedAt v d :=
  mk (ID d) (FirstName d) (LastName d) (Plate d) (TaxiType d) (CarBrand d)
     (CarModel d) (Location d) v (UpdatedAt d).
Definition set_UpdatedAt v d :=
  mk (ID d) (FirstName d) (LastName d) (Plate d) (TaxiType d) (CarBrand d)
     (CarModel d) (Location d) (CreatedAt d) v.

End Driver.

Module DriverWithDistance.
Record t : Type := mk { Driver : Driver.t; DistanceKm : float }.
End DriverWithDistance.

Module models.

Import Validator.

Definition TaxiTypeSari : string := "sari".
Definition TaxiTypeTurkuaz : string := "turkuaz".
Definition TaxiTypeSiyah : string := "siyah".

Definition IsValidTaxiType (taxiType : string) : bool :=
  String.eqb taxiType TaxiTypeSari
  || String.eqb taxiType TaxiTypeTurkuaz
  || String.eqb taxiType TaxiTypeSiyah.

(** The class [\s] of Go's regexp: tab, newline, form feed, return, space. *)
Definition is_space (c : ascii) : bool :=
  let n := N_of_ascii c in
  (N.eqb n 9 || N.eqb n 10 || N.eqb n 12 || N.eqb n 13 || N.eqb n 32)%N.

Definition is_digit (c : ascii) : bool :=
  GoString.between 48 57 (N_of_ascii c).

Definition is_letter (c : ascii) : bool :=
  let n := N_of_ascii c in
  GoString.between 65 90 n || GoString.between 97 122 n.

Fixpoint take_while (p : ascii -> bool) (l : list ascii) : list ascii :=
  match l with
  | c :: tl => if p c then c :: take_while p tl else []
  | [] => []
  end.

(** [^[0-9]{2}[A-Za-z]{1,3}[0-9]{1,4}$] over the whole text: letters and
    digits are disjoint, so the run of letters after the two digits is the
    letter group. *)
Definition plate_pattern (s : list ascii) : bool :=
  match s with
  | d1 :: d2 :: rest =>
      let letters := take_while is_letter rest in
      let n := List.length letters in
      let digits := skipn n rest in
      let k := List.length digits in
      is_digit d1 && is_digit d2
      && (1 <=? n)%nat && (n <=? 3)%nat
      && (1 <=? k)%nat && (k <=? 4)%nat
      && forallb is_digit digits
  | _ => false
  end.

Definition TurkishLicensePlateValidator (plate : string) : bool :=
  let plateNoSpace :=
    filter (fun c => negb (is_space c)) (list_ascii_of_string plate) in
  plate_pattern plateNoSpace.

Definition taxi_types : list string := ["sari"; "turkuaz"; "siyah"]%string.

Definition turkish_plate : tag :=
  custom "turkish_plate" TurkishLicensePlateValidator.

End models.

Module CreateDriverRequest.

Import Validator.

Record t : Type := mk {
  FirstName : string;
  LastName : string;
  Plate : string;
  TaxiType : string;
  CarBrand : string;
  CarModel : string;
  Lat : float;
  Lon : float
}.

Definition fields (r : t) : list field :=
  [ Field "FirstName" false (Some (VString (FirstName r))) [required; min 2; max 50];
    Field "LastName" false (Some (VString (LastName r))) [required; min 2; max 50];
    Field "Plate" false (Some (VString (Plate r))) [required; models.turkish_plate];
    Field "TaxiType" false (Some (VString (TaxiType r))) [required; oneof models.taxi_types];
    Field "CarBrand" false (Some (VString (CarBrand r))) [required; min 2; max 30];
    Field "CarModel" false (Some (VString (CarModel r))) [required; min 1; max 30];
    Field "Lat" false (Some (VFloat (Lat r))) [required; min (-90); max 90];
    Field "Lon" false (Some (VFloat (Lon r))) [required; min (-180); max 180] ].

Definition Validate (r : t) : option error := Struct (fields r).

End CreateDriverRequest.

Module UpdateDriverRequest.

Import Validator.

(** A nil pointer is [None]. *)
Record t : Type := mk {
  FirstName : option string;
  LastName : option string;
  TaxiType : option string;
  CarBrand : option string;
  CarModel : option string;
  Lat : option float;
  Lon : option float
}.

Definition fields (r : t) : list field :=
  [ Field "FirstName" true (option_map VString (FirstName r)) [omitempty; min 2; max 50];
    Field "LastName" true (option_map VString (LastName r)) [omitempty; min 2; max 50];
    Field "TaxiType" true (option_map VString (TaxiType r)) [omitempty; oneof models.taxi_types];
    Field "CarBrand" true (option_map VString (CarBrand r)) [omitempty; min 2; max 30];
    Field "CarModel" true (option_map VString (CarModel r)) [omitempty; min 1; max 30];
    Field "Lat" true (option_map VFloat (Lat r)) [omitempty; min (-90); max 90];
    Field "Lon" true (option_map VFloat (Lon r)) [omitempty; min (-180); max 180] ].

Definition HasLocation (r : t) : bool :=
  match Lat r, Lon r with
  | Some _, Some _ => true
  | _, _ => false
  end.

Definition GetLocation (r : t) : option Location.t :=
  match Lat r, Lon r with
  | Some lat, Some lon => Some (Location.mk lat lon)
  | _, _ => None
  end.

Definition Validate (r : t) : option error := Struct (fields r).

End UpdateDriverRequest.

Module UpdateLocationRequest.

Import Validator.

Record t : Type := mk { Lat : float; Lon : float }.

Definition fields (r : t) : list field :=
  [ Field "Lat" false (Some (VFloat (Lat r))) [required; min (-90); max 90];
    Field "Lon" false (Some (VFloat (Lon r))) [required; min (-180); max 180] ].


Definition Validate (r : t) : option error := Struct (fields r).

End UpdateLocationRequest.

(* ================================================================= *)
(** ** The world outside the program *)

(** A GeoJSON point, [coordinates: [longitude, latitude]]. *)
Record GeoPoint : Type := Point { longitude : float; latitude : float }.

(** What the program reads and writes but does not contain: the documents
    of the [drivers] collection in their natural order; the great-circle
    distance in metres that the store measures between two points; the
    order in which the store returns two documents with equal sort keys,
    which it does not promise and which may change from one query, given
    here by its [skip] and [limit], to the next; the readings [time.Now]
    delivers and the identifiers [primitive.NewObjectID] delivers, each
    with the number already taken. *)
Record World : Type := mkWorld {
  collection : list Driver.t;
  geo_distance : GeoPoint -> GeoPoint -> float;
  find_ties : Z -> Z -> Driver.t -> Driver.t -> bool;
  clock : nat -> Time;
  ticks : nat;
  oid_source : nat -> ObjectID;
  issued : nat
}.

Definition with_collection (c : list Driver.t) (w : World) : World :=
  mkWorld c (geo_distance w) (find_ties w) (clock w) (ticks w) (oid_source w)
          (issued w).

(** State passing: every operation takes the world and hands it on. *)
Definition M (A : Type) : Type := World -> A * World.

Definition ret {A} (a : A) : M A := fun w => (a, w).

Definition bind {A B} (m : M A) (k : A -> M B) : M B :=
  fun w => let (a, w') := m w in k a w'.

Declare Scope go_scope.
Delimit Scope go_scope with go.
Notation "x <- m ;; k" := (bind m (fun x => k))
  (at level 61, m at next level, right associativity) : go_scope.
Open Scope go_scope.

Definition time_Now : M Time :=
  fun w => (clock w (ticks w),
            mkWorld (collection w) (geo_distance w) (find_ties w) (clock w)
                    (S (ticks w)) (oid_source w) (issued w)).

Definition NewObjectID : M ObjectID :=
  fun w => (oid_source w (issued w),
            mkWorld (collection w) (geo_distance w) (find_ties w) (clock w)
                    (ticks w) (oid_source w) (S (issued w))).

(** Insertion sort, stable: an element goes in front of the first one it
    is not above. *)
Fixpoint insert_by {A} (le : A -> A -> bool) (x : A) (l : list A) : list A :=
  match l with
  | [] => [x]
  | y :: tl => if le x y then x :: l else y :: insert_by le x tl
  end.

Definition sort_by {A} (le : A -> A -> bool) (l : list A) : list A :=
  fold_right (insert_by le) [] l.

(** [x] may stand in front of [y]. *)
Definition ordered {A} (le : A -> A -> bool) (x y : A) : Prop := le x y = true.

(** The first [n] elements of a list and the rest, for a count held in an
    integer. *)
Fixpoint take {A} (n : Z) (l : list A) : list A :=
  match l with
  | [] => []
  | x :: tl => if (n <=? 0)%Z then [] else x :: take (n - 1) tl
  end.

Fixpoint drop {A} (n : Z) (l : list A) : list A :=
  match l with
  | [] => []
  | x :: tl => if (n <=? 0)%Z then l else drop (n - 1) tl
  end.

(* ================================================================= *)
(** ** go.mongodb.org/mongo-driver: one collection *)

Module Mongo.

Local Open Scope Z_scope.

(** A BSON datetime keeps milliseconds. *)
Definition bson_time (t : Time) : Time := t / 1000000 * 1000000.

Definition encode (d : Driver.t) : Driver.t :=
  Driver.set_UpdatedAt (bson_time (Driver.UpdatedAt d))
    (Driver.set_CreatedAt (bson_time (Driver.CreatedAt d)) d).

Definition has_id (oid : ObjectID) (d : Driver.t) : bool :=
  primitive.oid_eqb (Driver.ID d) oid.

Definition has_plate (plate : string) (d : Driver.t) : bool :=
  String.eqb (Driver.Plate d) plate.

(** [InsertOne]: the collection has its [_id] index and a unique index on
    [plate]; a document that repeats either key is refused. *)
Definition InsertOne (doc : Driver.t) : M (result ObjectID) :=
  fun w =>
    let c := collection w in
    if existsb (fun x => has_id (Driver.ID doc) x || has_plate (Driver.Plate doc) x) c
    then (Err (WriteException DuplicateKey), w)
    else (Ok (Driver.ID doc), with_collection (c ++ [encode doc]) w).

(** The [$set] document of [Update]. *)
Record set_doc : Type := Set_ {
  first_name : string;
  last_name : string;
  plate : string;
  taxi_type : string;
  car_brand : string;
  car_model : string;
  location : Location.t;
  updated_at : Time
}.

Definition apply_set (u : set_doc) (d : Driver.t) : Driver.t :=
  Driver.mk (Driver.ID d) (first_name u) (last_name u) (plate u) (taxi_type u)
            (car_brand u) (car_model u) (location u) (Driver.CreatedAt d)
            (bson_time (updated_at u)).

Fixpoint replace_first (oid : ObjectID) (u : set_doc) (c : list Driver.t)
  : list Driver.t :=
  match c with
  | [] => []
  | d :: tl => if has_id oid d then apply_set u d :: tl
               else d :: replace_first oid u tl
  end.

(** [UpdateOne({_id: oid}, {$set: u})]; the result is [MatchedCount]. *)
Definition UpdateOne (oid : ObjectID) (u : set_doc) : M (result Z) :=
  fun w =>
    let c := collection w in
    match find (has_id oid) c with
    | None => (Ok 0, w)
    | Some _ =>
        if existsb (fun x => negb (has_id oid x) && has_plate (plate u) x) c
        then (Err (WriteException DuplicateKey), w)
        else (Ok 1, with_collection (replace_first oid u c) w)
    end.

(** [FindOne(filter).Decode]. *)
Definition FindOne (filter : Driver.t -> bool) : M (result Driver.t) :=
  fun w =>
    match find filter (collection w) with
    | Some d => (Ok d, w)
    | None => (Err (Var mongo_ErrNoDocuments), w)
    end.

Fixpoint remove_first (oid : ObjectID) (c : list Driver.t) : list Driver.t :=
  match c with
  | [] => []
  | d :: tl => if has_id oid d then tl else d :: remove_first oid tl
  end.

(** [DeleteOne({_id: oid})]; the result is [DeletedCount]. *)
Definition DeleteOne (oid : ObjectID) : M (result Z) :=
  fun w =>
    let c := collection w in
    match find (has_id oid) c with
    | None => (Ok 0, w)
    | Some _ => (Ok 1, with_collection (remove_first oid c) w)
    end.

Definition CountDocuments : M (result Z) :=
  fun w => (Ok (Z.of_nat (List.length (collection w))), w).

(** The sort [{created_at: -1}]. *)
Definition newer_first (a b : Driver.t) : bool :=
  Driver.CreatedAt b <=? Driver.CreatedAt a.

(** The order of a sorted [Find]: by the sort key and, between two
    documents with the same key, as [ties] has it. *)
Definition find_order (ties : Driver.t -> Driver.t -> bool) (a b : Driver.t)
  : bool :=
  if Driver.CreatedAt a =? Driver.CreatedAt b then ties a b else newer_first a b.

Definition take_limit {A} (limit : Z) (l : list A) : list A :=
  if limit =? 0 then l else take (Z.abs limit) l.

(** [Find({})] with [skip], [limit] and the sort [{created_at: -1}]; the
    server refuses a negative [skip]. *)
Definition Find (skip limit : Z) : M (result (list Driver.t)) :=
  fun w =>
    if skip <? 0 then (Err (WriteException CommandFailed), w)
    else (Ok (take_limit limit
                (drop skip
                   (sort_by (find_order (find_ties w skip limit)) (collection w)))),
          w).

(** The stages [FindNearby] builds. *)
Inductive stage : Type :=
| geoNear (near : GeoPoint) (maxDistance : float)
| match_taxi_type (taxi_type : string)
| limit (n : Z).

(** A document of the pipeline: the driver and its [distance] field. *)
Definition geo_doc : Type := (Driver.t * float)%type.

Definition nearer_first (a b : geo_doc) : bool := (snd a <=? snd b)%float.

(** The point the geospatial index takes a [location] for. The struct
    [Location] is stored as the sub-document [{lat: .., lon: ..}], which is
    no GeoJSON object: the store reads it as a legacy coordinate pair, the
    first field as the longitude and the second as the latitude, whatever
    the fields are called. *)
Definition position (l : Location.t) : GeoPoint :=
  Point (Location.Lat l) (Location.Lon l).

(** [$geoNear]: the documents within [maxDistance] metres of [near],
    nearest first, each with its distance in [distanceField]. *)
Definition run_geoNear (w : World) (near : GeoPoint) (maxDistance : float)
  : list geo_doc :=
  sort_by nearer_first
    (filter (fun p => (snd p <=? maxDistance)%float)
       (map (fun d => (d, geo_distance w near (position (Driver.Location d))))
            (collection w))).

Fixpoint run_stages (stages : list stage) (docs : list geo_doc)
  : option (list geo_doc) :=
  match stages with
  | [] => Some docs
  | geoNear _ _ :: _ => None            (* only valid as the first stage *)
  | match_taxi_type t :: rest =>
      run_stages rest (filter (fun p => String.eqb (Driver.TaxiType (fst p)) t) docs)
  | limit n :: rest =>
      if n <=? 0 then None else run_stages rest (take n docs)
  end.

(** [Aggregate(pipeline)] followed by [cursor.All]. *)
Definition Aggregate (pipeline : list stage) : M (result (list geo_doc)) :=
  fun w =>
    match pipeline with
    | geoNear near maxDistance :: rest =>
        match run_stages rest (run_geoNear w near maxDistance) with
        | Some docs => (Ok docs, w)
        | None => (Err (WriteException CommandFailed), w)
        end
    | _ => (Err (WriteException CommandFailed), w)
    end.

End Mongo.

(* ================================================================= *)
(** ** internal/repository: MongoDriverRepository *)

(** A [*T] argument is an [option]: [None] is the nil pointer. *)
Module repository.

Local Open Scope string_scope.

Definition ErrDriverNotFound : error := Var repository_ErrDriverNotFound.

Definition Create (driver : option Driver.t) : M (result string) :=
  match driver with
  | None => ret (Err (New "driver cannot be nil"))
  | Some driver =>
      now <- time_Now ;;
      let driver := Driver.set_UpdatedAt now (Driver.set_CreatedAt now driver) in
      driver <- (if primitive.IsZero (Driver.ID driver)
                 then oid <- NewObjectID ;; ret (Driver.set_ID oid driver)
                 else ret driver) ;;
      res <- Mongo.InsertOne driver ;;
      match res with
      | Err err =>
          if IsDuplicateKeyError err
          then ret (Err (Errorf ("driver with plate " ++ Driver.Plate driver
                                 ++ " already exists")))
          else ret (Err (Wrapf "failed to create driver: " err))
      | Ok oid => ret (Ok (primitive.Hex oid))
      end
  end.

Definition Update (id : string) (driver : option Driver.t) : M (option error) :=
  if String.eqb id "" then ret (Some (New "driver ID cannot be empty"))
  else match driver with
  | None => ret (Some (New "driver cannot be nil"))
  | Some driver =>
      match primitive.ObjectIDFromHex id with
      | Err err => ret (Some (Wrapf "invalid driver ID format: " err))
      | Ok objectID =>
          now <- time_Now ;;
          let driver := Driver.set_UpdatedAt now driver in
          let update :=
            Mongo.Set_ (Driver.FirstName driver) (Driver.LastName driver)
                       (Driver.Plate driver) (Driver.TaxiType driver)
                       (Driver.CarBrand driver) (Driver.CarModel driver)
                       (Driver.Location driver) (Driver.UpdatedAt driver) in
          res <- Mongo.UpdateOne objectID update ;;
          match res with
          | Err err =>
              if IsDuplicateKeyError err
              then ret (Some (Errorf ("driver with plate " ++ Driver.Plate driver
                                      ++ " already exists")))
              else ret (Some (Wrapf "failed to update driver: " err))
          | Ok MatchedCount =>
              if (MatchedCount =? 0)%Z
              then ret (Some (Errorf ("driver with ID " ++ id ++ " not found")))
              else ret None
          end
      end
  end.

Definition FindByID (id : string) : M (result Driver.t) :=
  if String.eqb id "" then ret (Err (New "driver ID cannot be empty"))
  else match primitive.ObjectIDFromHex id with
  | Err err => ret (Err (Wrapf "invalid driver ID format: " err))
  | Ok objectID =>
      res <- Mongo.FindOne (Mongo.has_id objectID) ;;
      match res with
      | Err err =>
          match err with
          | Var mongo_ErrNoDocuments =>
              ret (Err (Errorf ("driver with ID " ++ id ++ " not found")))
          | _ => ret (Err (Wrapf "failed to find driver: " err))
          end
      | Ok driver => ret (Ok driver)
      end
  end.

Definition FindAll (page pageSize : Z) : M (result (list Driver.t * Z)) :=
  let page := if (page <? 1)%Z then 1%Z else page in
  let pageSize := if (pageSize <? 1)%Z then 10%Z else pageSize in
  let pageSize := if (100 <? pageSize)%Z then 100%Z else pageSize in
  let skip := GoInt.mul (GoInt.sub page 1) pageSize in
  cnt <- Mongo.CountDocuments ;;
  match cnt with
  | Err err => ret (Err (Wrapf "failed to count drivers: " err))
  | Ok totalCount =>
      res <- Mongo.Find skip pageSize ;;
      match res with
      | Err err => ret (Err (Wrapf "failed to find drivers: " err))
      | Ok drivers => ret (Ok (drivers, totalCount))
      end
  end.

Definition FindNearby (lat lon radiusKm : float) (taxiType : string)
  : M (result (list DriverWithDistance.t)) :=
  if ((lat <? -90) || Float64.gtb lat 90)%float
  then ret (Err (New "invalid latitude value"))
  else if ((lon <? -180) || Float64.gtb lon 180)%float
  then ret (Err (New "invalid longitude value"))
  else if (radiusKm <=? 0)%float
  then ret (Err (New "radius must be positive"))
  else
    let center := Point lon lat in
    let pipeline := [Mongo.geoNear center (radiusKm * 1000)%float] in
    let pipeline :=
      if negb (String.eqb taxiType "") && models.IsValidTaxiType taxiType
      then (pipeline ++ [Mongo.match_taxi_type taxiType])%list
      else pipeline in
    let pipeline := (pipeline ++ [Mongo.limit 50])%list in
    res <- Mongo.Aggregate pipeline ;;
    match res with
    | Err err => ret (Err (Wrapf "failed to find nearby drivers: " err))
    | Ok results =>
        ret (Ok (map (fun result =>
                        DriverWithDistance.mk (fst result) (snd result / 1000)%float)
                     results))
    end.

Definition FindByPlate (plate : string) : M (result Driver.t) :=
  if String.eqb plate "" then ret (Err (New "plate cannot be empty"))
  else
    res <- Mongo.FindOne (Mongo.has_plate plate) ;;
    match res with
    | Err err =>
        match err with
        | Var mongo_ErrNoDocuments => ret (Err ErrDriverNotFound)
        | _ => ret (Err (Wrapf "failed to find driver by plate: " err))
        end
    | Ok driver => ret (Ok driver)
    end.

Definition Delete (id : string) : M (option error) :=
  if String.eqb id "" then ret (Some (New "driver ID cannot be empty"))
  else match primitive.ObjectIDFromHex id with
  | Err err => ret (Some (Wrapf "invalid driver ID format: " err))
  | Ok objectID =>
      res <- Mongo.DeleteOne objectID ;;
      match res with
      | Err err => ret (Some (Wrapf "failed to delete driver: " err))
      | Ok DeletedCount =>
          if (DeletedCount =? 0)%Z
          then ret (Some (Errorf ("driver with ID " ++ id ++ " not found")))
          else ret None
      end
  end.

End repository.

(* ================================================================= *)
(** ** internal/service: driverService *)

Module PaginatedResponse.
Record t : Type := mk {
  Data : list Driver.t;
  Page : Z;
  PageSize : Z;
  TotalCount : Z;
  TotalPages : Z
}.
End PaginatedResponse.

Module service.

Local Open Scope string_scope.

Definition CreateDriver (req : option CreateDriverRequest.t) : M (result string) :=
  match req with
  | None => ret (Err (New "request cannot be nil"))
  | Some req =>
      match CreateDriverRequest.Validate req with
      | Some err => ret (Err (Wrapf "validation failed: " err))
      | None =>
          id <- NewObjectID ;;
          createdAt <- time_Now ;;
          updatedAt <- time_Now ;;
          let driver :=
            Driver.mk id
              (CreateDriverRequest.FirstName req) (CreateDriverRequest.LastName req)
              (CreateDriverRequest.Plate req) (CreateDriverRequest.TaxiType req)
              (CreateDriverRequest.CarBrand req) (CreateDriverRequest.CarModel req)
              (Location.mk (CreateDriverRequest.Lat req) (CreateDriverRequest.Lon req))
              createdAt updatedAt in
          res <- repository.Create (Some driver) ;;
          match res with
          | Err err => ret (Err (Wrapf "failed to create driver: " err))
          | Ok driverID => ret (Ok driverID)
          end
      end
  end.

(** The field-by-field merge of [UpdateDriver]. *)
Definition merge (req : UpdateDriverRequest.t) (existingDriver : Driver.t) : Driver.t :=
  let d := existingDriver in
  let d := match UpdateDriverRequest.FirstName req with
           | Some v => Driver.set_FirstName v d | None => d end in
  let d := match UpdateDriverRequest.LastName req with
           | Some v => Driver.set_LastName v d | None => d end in
  let d := match UpdateDriverRequest.TaxiType req with
           | Some v => Driver.set_TaxiType v d | None => d end in
  let d := match UpdateDriverRequest.CarBrand req with
           | Some v => Driver.set_CarBrand v d | None => d end in
  let d := match UpdateDriverRequest.CarModel req with
           | Some v => Driver.set_CarModel v d | None => d end in
  match UpdateDriverRequest.Lat req, UpdateDriverRequest.Lon req with
  | Some lat, Some lon => Driver.set_Location (Location.mk lat lon) d
  | _, _ => d
  end.

Definition UpdateDriver (id : string) (req : option UpdateDriverRequest.t)
  : M (option error) :=
  if String.eqb id "" then ret (Some (New "driver ID cannot be empty"))
  else match req with
  | None => ret (Some (New "request cannot be nil"))
  | Some req =>
      match UpdateDriverRequest.Validate req with
      | Some err => ret (Some (Wrapf "validation failed: " err))
      | None =>
          found <- repository.FindByID id ;;
          match found with
          | Err err =>
              if Is err repository_ErrDriverNotFound
              then ret (Some (Errorf ("driver with ID " ++ id ++ " not found")))
              else ret (Some (Wrapf "failed to find driver: " err))
          | Ok existingDriver =>
              let existingDriver := merge req existingDriver in
              now <- time_Now ;;
              let existingDriver := Driver.set_UpdatedAt now existingDriver in
              res <- repository.Update id (Some existingDriver) ;;
              match res with
              | Some err => ret (Some (Wrapf "failed to update driver: " err))
              | None => ret None
              end
          end
      end
  end.

Definition GetDriverByID (id : string) : M (result Driver.t) :=
  if String.eqb id "" then ret (Err (New "driver ID cannot be empty"))
  else
    found <- repository.FindByID id ;;
    match found with
    | Err err =>
        if Is err repository_ErrDriverNotFound
        then ret (Err (Errorf ("driver with ID " ++ id ++ " not found")))
        else ret (Err (Wrapf "failed to get driver: " err))
    | Ok driver => ret (Ok driver)
    end.

Definition ListDrivers (page pageSize : Z) : M (result PaginatedResponse.t) :=
  let page := if (page <? 1)%Z then 1%Z else page in
  let pageSize := if (pageSize <? 1)%Z then 10%Z else pageSize in
  let pageSize := if (100 <? pageSize)%Z then 100%Z else pageSize in
  res <- repository.FindAll page pageSize ;;
  match res with
  | Err err => ret (Err (Wrapf "failed to list drivers: " err))
  | Ok (drivers, totalCount) =>
      let totalPages :=
        Float64.ceil_to_int
          (Float64.of_int totalCount / Float64.of_int pageSize)%float in
      ret (Ok (PaginatedResponse.mk drivers page pageSize totalCount totalPages))
  end.

Definition FindNearbyDrivers (lat lon : float) (taxiType : string)
  : M (result (list DriverWithDistance.t)) :=
  if ((lat <? -90) || Float64.gtb lat 90)%float
  then ret (Err (New "invalid latitude: must be between -90 and 90"))
  else if ((lon <? -180) || Float64.gtb lon 180)%float
  then ret (Err (New "invalid longitude: must be between -180 and 180"))
  else if negb (String.eqb taxiType "") && negb (models.IsValidTaxiType taxiType)
  then ret (Err (Errorf ("invalid taxi type: " ++ taxiType
                         ++ " (must be one of: sari, turkuaz, siyah)")))
  else
    let radiusKm := 5%float in
    res <- repository.FindNearby lat lon radiusKm taxiType ;;
    match res with
    | Err err => ret (Err (Wrapf "failed to find nearby drivers: " err))
    | Ok drivers => ret (Ok drivers)
    end.

Definition UpdateDriverLocation (id : string) (req : option UpdateLocationRequest.t)
  : M (option error) :=
  if String.eqb id "" then ret (Some (New "driver ID cannot be empty"))
  else match req with
  | None => ret (Some (New "request cannot be nil"))
  | Some req =>
      match UpdateLocationRequest.Validate req with
      | Some err => ret (Some (Wrapf "validation failed: " err))
      | None =>
          found <- repository.FindByID id ;;
          match found with
          | Err err =>
              if Is err repository_ErrDriverNotFound
              then ret (Some (Errorf ("driver with ID " ++ id ++ " not found")))
              else ret (Some (Wrapf "failed to find driver: " err))
          | Ok existingDriver =>
              let existingDriver :=
                Driver.set_Location
                  (Location.mk (UpdateLocationRequest.Lat req)
                               (UpdateLocationRequest.Lon req)) existingDriver in
              now <- time_Now ;;
              let existingDriver := Driver.set_UpdatedAt now existingDriver in
              res <- repository.Update id (Some existingDriver) ;;
              match res with
              | Some err => ret (Some (Wrapf "failed to update driver location: " err))
              | None => ret None
              end
          end
      end
  end.

Definition DeleteDriver (id : string) : M (option error) :=
  if String.eqb id "" then ret (Some (New "driver ID cannot be empty"))
  else
    found <- repository.FindByID id ;;
    match found with
    | Err err =>
        if Is err repository_ErrDriverNotFound
        then ret (Some (Errorf ("driver with ID " ++ id ++ " not found")))
        else ret (Some (Wrapf "failed to find driver: " err))
    | Ok _ =>
        res <- repository.Delete id ;;
        match res with
        | Some err => ret (Some (Wrapf "failed to delete driver: " err))
        | None => ret None
        end
    end.

Definition GetDriverByPlate (plate : string) : M (result Driver.t) :=
  if String.eqb plate "" then ret (Err (New "plate cannot be empty"))
  else
    found <- repository.FindByPlate plate ;;
    match found with
    | Err err =>
        if Is err repository_ErrDriverNotFound
        then ret (Err (Errorf ("driver with plate " ++ plate ++ " not found")))
        else ret (Err (Wrapf "failed to get driver by plate: " err))
    | Ok driver => ret (Ok driver)
    end.

End service.

(* ================================================================= *)
(** ** strconv.Atoi *)

Module strconv.

Local Open Scope Z_scope.

(** The value of a run of decimal digits; [None] when a byte is no digit. *)
Fixpoint digits (acc : Z) (s : string) : option Z :=
  match s with
  | EmptyString => Some acc
  | String c tl =>
      let n := Z.of_N (N_of_ascii c) in
      if (48 <=? n) && (n <=? 57) then digits (acc * 10 + (n - 48)) tl else None
  end.

(** [Atoi]: an optional sign, then one decimal digit at least and nothing
    else; [None] is a non-nil error, for a text that is no such number or
    whose value no [int] holds. *)
Definition Atoi (s : string) : option Z :=
  let (neg, body) :=
    match s with
    | String "-"%char tl => (true, tl)
    | String "+"%char tl => (false, tl)
    | _ => (false, s)
    end in
  match body with
  | EmptyString => None
  | _ =>
      match digits 0 body with
      | None => None
      | Some n =>
          let v := if neg then - n else n in
          if (GoInt.min_int <=? v) && (v <=? GoInt.max_int) then Some v else None
      end
  end.

End strconv.

(* ================================================================= *)
(** ** internal/handlers: the status code each handler answers with *)

Module handlers.

Local Open Scope string_scope.
Local Open Scope Z_scope.

Definition StatusOK : Z := 200.
Definition StatusCreated : Z := 201.
Definition StatusNoContent : Z := 204.
Definition StatusBadRequest : Z := 400.
Definition StatusNotFound : Z := 404.
Definition StatusConflict : Z := 409.
Definition StatusInternalServerError : Z := 500.

Definition isValidObjectID (id : string) : bool :=
  is_ok (primitive.ObjectIDFromHex id).

(** [CreateDriver], from the parsed body on. *)
Definition CreateDriver (req : CreateDriverRequest.t) : M Z :=
  match CreateDriverRequest.Validate req with
  | Some _ => ret StatusBadRequest
  | None =>
      res <- service.CreateDriver (Some req) ;;
      match res with
      | Err err =>
          if Is err service_ErrDriverAlreadyExists
          then ret StatusConflict
          else ret StatusInternalServerError
      | Ok _ => ret StatusCreated
      end
  end.

Definition GetDriver (id : string) : M Z :=
  if negb (isValidObjectID id) then ret StatusBadRequest
  else
    res <- service.GetDriverByID id ;;
    match res with
    | Err err =>
        if Is err service_ErrDriverNotFound
        then ret StatusNotFound
        else ret StatusInternalServerError
    | Ok _ => ret StatusOK
    end.

Definition DeleteDriver (id : string) : M Z :=
  if negb (isValidObjectID id) then ret StatusBadRequest
  else
    res <- service.DeleteDriver id ;;
    match res with
    | Some err =>
        if Is err service_ErrDriverNotFound
        then ret StatusNotFound
        else ret StatusInternalServerError
    | None => ret StatusNoContent
    end.

(** [FindNearbyDrivers], from the parsed [lat] and [lon] on. *)
Definition FindNearbyDrivers (lat lon : float) (taxiType : string) : M Z :=
  res <- service.FindNearbyDrivers lat lon taxiType ;;
  match res with
  | Err err =>
      if Is err service_ErrInvalidLocation
      then ret StatusBadRequest
      else ret StatusInternalServerError
  | Ok _ => ret StatusOK
  end.

(** [UpdateDriver], from the parsed body on. *)
Definition UpdateDriver (id : string) (req : UpdateDriverRequest.t) : M Z :=
  if negb (isValidObjectID id) then ret StatusBadRequest
  else match UpdateDriverRequest.Validate req with
  | Some _ => ret StatusBadRequest
  | None =>
      res <- service.UpdateDriver id (Some req) ;;
      match res with
      | Some err =>
          if Is err service_ErrDriverNotFound
          then ret StatusNotFound
          else ret StatusInternalServerError
      | None =>
          got <- service.GetDriverByID id ;;
          match got with
          | Err _ => ret StatusInternalServerError
          | Ok _ => ret StatusOK
          end
      end
  end.

(** [UpdateDriverLocation], from the parsed body on. *)
Definition UpdateDriverLocation (id : string) (req : UpdateLocationRequest.t) : M Z :=
  if negb (isValidObjectID id) then ret StatusBadRequest
  else match UpdateLocationRequest.Validate req with
  | Some _ => ret StatusBadRequest
  | None =>
      res <- service.UpdateDriverLocation id (Some req) ;;
      match res with
      | Some err =>
          if Is err service_ErrDriverNotFound
          then ret StatusNotFound
          else ret StatusInternalServerError
      | None => ret StatusOK
      end
  end.

(** The page and page size [ListDrivers] reads from the query values
    [page] and [pageSize] ([""] when the query has none). *)
Definition ListDrivers_params (pageStr pageSizeStr : string) : Z * Z :=
  let page :=
    if String.eqb pageStr "" then 1
    else match strconv.Atoi pageStr with
         | Some p => if 0 <? p then p else 1
         | None => 1
         end in
  let pageSize :=
    if String.eqb pageSizeStr "" then 20
    else match strconv.Atoi pageSizeStr with
         | Some ps => if 0 <? ps then (if 100 <? ps then 100 else ps) else 20
         | None => 20
         end in
  (page, pageSize).

Definition ListDrivers (pageStr pageSizeStr : string) : M Z :=
  let (page, pageSize) := ListDrivers_params pageStr pageSizeStr in
  res <- service.ListDrivers page pageSize ;;
  match res with
  | Err _ => ret StatusInternalServerError
  | Ok _ => ret StatusOK
  end.

(** [HandleServiceErrors]: the status of the first case that matches. *)
Definition HandleServiceErrors (err : error) : Z :=
  if Is err service_ErrDriverNotFound then StatusNotFound
  else if Is err service_ErrDriverAlreadyExists then StatusConflict
  else if Is err service_ErrInvalidID then StatusBadRequest
  else if Is err service_ErrValidationFailed then StatusBadRequest
  else if Is err repository_ErrDriverNotFound then StatusNotFound
  else if Is err repository_ErrInvalidID then StatusBadRequest
  else StatusInternalServerError.

End handlers.

(* ================================================================= *)
(** ** internal/config: the configuration read from the environment *)

Module config.

Local Open Scope string_scope.

Record Config : Type := mkConfig {
  MongoDBURI : string;
  MongoDBDatabase : string;
  ServerPort : string
}.

(** The environment: [os.LookupEnv] of a key, [None] when it is not set. *)
Definition Env : Type := string -> option string.

Definition getEnv (env : Env) (key fallback : string) : string :=
  match env key with
  | Some value => value
  | None => fallback
  end.

(** A call either returns or panics with a message. *)
Inductive outcome (A : Type) : Type :=
| Returns (a : A)
| Panics (message : string).

Arguments Panics {A} message.

Definition LoadConfig (env : Env) : outcome Config :=
  let config :=
    mkConfig (getEnv env "MONGODB_URI" "mongodb://localhost:27017")
             (getEnv env "MONGODB_DATABASE" "taxihub")
             (getEnv env "SERVER_PORT" "9000") in
  if String.eqb (MongoDBURI config) "" then Panics "MONGODB_URI is required"
  else if String.eqb (MongoDBDatabase config) "" then Panics "MONGODB_DATABASE is required"
  else if String.eqb (ServerPort config) "" then Panics "SERVER_PORT is required"
  else Returns config.

Definition GetServerAddress (c : Config) : string := ":" ++ ServerPort c.

End config.

(* ================================================================= *)
(** ** Words of the specification *)

(** The distance in metres the store measures between the query point
    [(lat, lon)] and the point it takes the stored location of an entry's
    driver for. *)
Definition metres_from (w : World) (lat lon : float) (e : DriverWithDistance.t)
  : float :=
  geo_distance w (Point lon lat)
               (Mongo.position (Driver.Location (DriverWithDistance.Driver e))).

(** What a document that [$geoNear] passes on is: a stored driver, with
    the distance the store measures, within [maxDistance]. *)
Definition geo_hit (w : World) (near : GeoPoint) (maxDistance : float)
           (p : Mongo.geo_doc) : Prop :=
  In (fst p) (collection w)
  /\ snd p = geo_distance w near (Mongo.position (Driver.Location (fst p)))
  /\ (snd p <=? maxDistance)%float = true.

(** The documents [FindNearby] keeps of those of [$geoNear]. *)
Definition nearby_stages (taxiType : string) : list Mongo.stage :=
  if negb (String.eqb taxiType "") && models.IsValidTaxiType taxiType
  then [Mongo.match_taxi_type taxiType; Mongo.limit 50]
  else [Mongo.limit 50].

(** "Values outside are clamped": brought to the nearest bound. *)
Definition clamp (lo hi x : Z) : Z := Z.max lo (Z.min hi x).

(** "Ceiling of total/page-size": the least [k] with [total <= k * size]. *)
Definition is_ceiling_of_quotient (total size k : Z) : Prop :=
  (total <= k * size /\ (k - 1) * size < total)%Z.

(** A text of [lo] to [hi] runes. *)
Definition length_within (lo hi : Z) (s : string) : bool :=
  (lo <=? GoString.RuneCountInString s)%Z && (GoString.RuneCountInString s <=? hi)%Z.

(** A number of the closed range from [lo] to [hi]. *)
Definition within (lo hi : Z) (x : float) : bool :=
  (Float64.of_Z lo <=? x)%float && (x <=? Float64.of_Z hi)%float.

(** What holds of a field of a partial request: nothing when it is absent. *)
Definition when_present {A} (p : A -> bool) (o : option A) : bool :=
  match o with
  | Some v => p v
  | None => true
  end.

(** What a driver keeps for life: its identifier, its plate, which no
    update may change, and its creation time. *)
Definition identity (d : Driver.t) : ObjectID * string * Time :=
  (Driver.ID d, Driver.Plate d, Driver.CreatedAt d).

(** The error variables the handlers test an error of the service for. *)
Definition tested_vars : list error_var :=
  [ service_ErrDriverNotFound; service_ErrDriverAlreadyExists;
    service_ErrInvalidID; service_ErrInvalidPlate; service_ErrInvalidLocation;
    service_ErrInvalidTaxiType; service_ErrValidationFailed;
    service_ErrRepositoryError; repository_ErrDriverNotFound;
    repository_ErrInvalidID ].

(** An error that none of those tests recognises. *)
Definition unclassified (e : error) : Prop :=
  forall v, In v tested_vars -> Is e v = false.

(** The statuses the handlers answer an error of the service with when no
    test recognises it, and the statuses of success and of a refused
    request. *)
Definition answered (status : Z) : Prop :=
  In status [200; 201; 204; 400; 500]%Z.

(* ================================================================= *)
(** ** A small world to run the program in *)

Module Examples.

Local Open Scope string_scope.

(** A stand-in for the store's distance: degrees of latitude and of
    longitude apart, at 111 km a degree. *)
Definition flat_distance (a b : GeoPoint) : float :=
  ((abs (latitude b - latitude a) + abs (longitude b - longitude a))
   * 111000)%float.

(** A store that returns the documents of equal sort keys in the order it
    holds them on a query of even offset, and in the reverse order on one
    of odd offset. *)
Definition ties_by_offset (skip limit : Z) (a b : Driver.t) : bool := Z.even skip.

(** Identifiers 00..01, 00..02, ... *)
Definition oid_of_nat (n : nat) : ObjectID :=
  (repeat Ascii.zero 11 ++ [ascii_of_nat (S n)])%list.

(** A clock that starts at 2023-11-14T22:13:20.123456789Z and advances a
    millisecond a reading. *)
Definition clock_of_nat (n : nat) : Time :=
  (Z.of_nat n * 1000000 + 1700000000123456789)%Z.

Definition empty_world : World :=
  mkWorld [] flat_distance ties_by_offset clock_of_nat 0 oid_of_nat 0.

Definition ali : CreateDriverRequest.t :=
  CreateDriverRequest.mk "Ali" "Veli" "34ABC123" "sari" "Fiat" "Egea" 41 29.

Definition can : CreateDriverRequest.t :=
  CreateDriverRequest.mk "Can" "Kaya" "06XYZ456" "siyah" "Renault" "Clio" 41.03125 29.

(** The same plate as [ali]. *)
Definition ali_again : CreateDriverRequest.t :=
  CreateDriverRequest.mk "Ayse" "Demir" "34ABC123" "turkuaz" "Ford" "Focus" 40 30.

(** [ali] on the equator. *)
Definition ali_equator : CreateDriverRequest.t :=
  CreateDriverRequest.mk "Ali" "Veli" "34ABC123" "sari" "Fiat" "Egea" 0 29.

Definition one_driver : World := snd (service.CreateDriver (Some ali) empty_world).

Definition two_drivers : World := snd (service.CreateDriver (Some can) one_driver).

Definition ali_id : string := "000000000000000000000001".

(** [ali] as the collection of [one_driver] holds it. *)
Definition ali_stored : Driver.t :=
  Driver.mk (oid_of_nat 0) "Ali" "Veli" "34ABC123" "sari" "Fiat" "Egea"
            (Location.mk 41 29) 1700000000125000000%Z 1700000000125000000%Z.

Definition absent_id : string := "000000000000000000000009".


End Examples.

(* ================================================================= *)
(** * Properties *)

(** ** Lists: sorting by insertion, [take] and [drop] *)

Section Sorting.

Variable A : Type.
Variable le : A -> A -> bool.

Lemma In_insert_by (x y : A) (l : list A) :
  In y (insert_by le x l) <-> y = x \/ In y l.
Proof.
  induction l as [|z tl IH]; simpl.
  - intuition congruence.
  - destruct (le x z); simpl; rewrite ?IH; intuition congruence.
Qed.

Lemma In_sort_by (y : A) (l : list A) : In y (sort_by le l) <-> In y l.
Proof.
  induction l as [|z tl IH]; simpl; [tauto|].
  rewrite In_insert_by, IH. intuition congruence.
Qed.

Lemma length_insert_by (x : A) (l : list A) :
  List.length (insert_by le x l) = S (List.length l).
Proof.
  induction l as [|z tl IH]; simpl; [reflexivity|].
  destruct (le x z); simpl; congruence.
Qed.

Lemma length_sort_by (l : list A) : List.length (sort_by le l) = List.length l.
Proof.
  induction l as [|z tl IH]; simpl; [reflexivity|].
  rewrite length_insert_by. congruence.
Qed.

(** The order only has to be total and transitive on the elements at
    hand: [good] singles them out. *)
Variable good : A -> Prop.
Hypothesis le_total : forall x y, good x -> good y -> le x y = false -> le y x = true.
Hypothesis le_trans : forall x y z, le x y = true -> le y z = true -> le x z = true.

Lemma insert_by_sorted (x : A) (l : list A) :
  good x -> Forall good l ->
  StronglySorted (ordered le) l -> StronglySorted (ordered le) (insert_by le x l).
Proof.
  intros Gx Gl Hs. induction Hs as [|z tl Hs IH Hz]; simpl.
  - constructor; constructor.
  - inversion Gl as [|? ? Gz Gtl]; subst.
    destruct (le x z) eqn:E.
    + constructor; [constructor; assumption|].
      constructor; [exact E|].
      rewrite Forall_forall in *. intros y Hy. eapply le_trans; [exact E|]. apply Hz, Hy.
    + constructor; [apply IH; assumption|].
      rewrite Forall_forall in *. intros y Hy.
      apply (proj1 (In_insert_by x y tl)) in Hy. destruct Hy as [->|Hy].
      * apply le_total; assumption.
      * apply Hz, Hy.
Qed.

Lemma sort_by_sorted (l : list A) :
  Forall good l -> StronglySorted (ordered le) (sort_by le l).
Proof.
  induction l as [|z tl IH]; simpl; intros G.
  - constructor.
  - inversion G as [|? ? Gz Gtl]; subst. apply insert_by_sorted.
    + exact Gz.
    + apply Forall_forall. intros y Hy. apply (proj1 (In_sort_by y tl)) in Hy.
      rewrite Forall_forall in Gtl. apply Gtl, Hy.
    + apply IH, Gtl.
Qed.

End Sorting.

(** Sorting by a comparison that decides a total, transitive relation [R]
    wherever [R] is strict, and is arbitrary elsewhere, sorts by [R]. *)
Section SortingByKey.

Variable A : Type.
Variable le : A -> A -> bool.
Variable R : A -> A -> Prop.
Hypothesis le_R : forall x y, le x y = true -> R x y.
Hypothesis not_le_R : forall x y, le x y = false -> R y x.
Hypothesis R_trans : forall x y z, R x y -> R y z -> R x z.

Lemma insert_by_sorted_by_key (x : A) (l : list A) :
  StronglySorted R l -> StronglySorted R (insert_by le x l).
Proof.
  intros Hs. induction Hs as [|z tl Hs IH Hz]; simpl.
  - constructor; constructor.
  - destruct (le x z) eqn:E.
    + constructor; [constructor; assumption|].
      constructor; [apply le_R, E|].
      rewrite Forall_forall in *. intros y Hy.
      eapply R_trans; [apply le_R, E|]. apply Hz, Hy.
    + constructor; [exact IH|].
      rewrite Forall_forall in *. intros y Hy.
      apply (proj1 (In_insert_by le x y tl)) in Hy. destruct Hy as [->|Hy].
      * apply not_le_R, E.
      * apply Hz, Hy.
Qed.

Lemma sort_by_sorted_by_key (l : list A) : StronglySorted R (sort_by le l).
Proof.
  induction l as [|z tl IH]; simpl.
  - constructor.
  - apply insert_by_sorted_by_key, IH.
Qed.

End SortingByKey.

Section TakeDrop.

Variable A : Type.

Lemma In_take (n : Z) (l : list A) (x : A) : In x (take n l) -> In x l.
Proof.
  revert n. induction l as [|y tl IH]; simpl; intros n H; [assumption|].
  destruct (n <=? 0)%Z; simpl in H; [contradiction|].
  destruct H; [left; assumption | right; eapply IH; eassumption].
Qed.

Lemma In_drop (n : Z) (l : list A) (x : A) : In x (drop n l) -> In x l.
Proof.
  revert n. induction l as [|y tl IH]; simpl; intros n H; [assumption|].
  destruct (n <=? 0)%Z; simpl in H; [assumption|].
  right; eapply IH; eassumption.
Qed.

Lemma length_take (n : Z) (l : list A) :
  (0 <= n)%Z -> (Z.of_nat (List.length (take n l)) <= n)%Z.
Proof.
  revert n. induction l as [|y tl IH]; simpl; intros n Hn; [lia|].
  destruct (n <=? 0)%Z eqn:E; simpl; [lia|].
  apply Z.leb_gt in E. specialize (IH (n - 1)%Z ltac:(lia)). lia.
Qed.

Lemma drop_all (n : Z) (l : list A) :
  (Z.of_nat (List.length l) <= n)%Z -> drop n l = [].
Proof.
  revert n. induction l as [|y tl IH]; simpl; intros n Hn; [reflexivity|].
  destruct (n <=? 0)%Z eqn:E; [apply Z.leb_le in E; lia|].
  apply IH. lia.
Qed.

Lemma drop_zero (l : list A) : drop 0 l = l.
Proof. destruct l; reflexivity. Qed.

Variable R : A -> A -> Prop.

Lemma take_sorted (n : Z) (l : list A) :
  StronglySorted R l -> StronglySorted R (take n l).
Proof.
  intros Hs. revert n. induction Hs as [|y tl Hs IH Hy]; simpl; intros n.
  - constructor.
  - destruct (n <=? 0)%Z; constructor; [apply IH|].
    rewrite Forall_forall in *. intros x Hx. apply Hy. eapply In_take; eassumption.
Qed.

Lemma drop_sorted (n : Z) (l : list A) :
  StronglySorted R l -> StronglySorted R (drop n l).
Proof.
  intros Hs. revert n. induction Hs as [|y tl Hs IH Hy]; simpl; intros n.
  - constructor.
  - destruct (n <=? 0)%Z; [constructor; assumption | apply IH].
Qed.

Lemma filter_sorted (p : A -> bool) (l : list A) :
  StronglySorted R l -> StronglySorted R (filter p l).
Proof.
  induction 1 as [|y tl Hs IH Hy]; simpl; [constructor|].
  destruct (p y); [|assumption].
  constructor; [assumption|].
  rewrite Forall_forall in *. intros x Hx. apply filter_In in Hx. apply Hy, Hx.
Qed.

(** In a sorted list an element that stands later is not below an
    earlier one. *)
Lemma sorted_nth (l : list A) (i j : nat) (a b : A) :
  StronglySorted R l -> (i < j)%nat ->
  nth_error l i = Some a -> nth_error l j = Some b -> R a b.
Proof.
  intros Hs. revert i j. induction Hs as [|y tl Hs IH Hy]; intros i j Hij Hi Hj.
  - destruct i; discriminate.
  - destruct j as [|j]; [lia|]. simpl in Hj.
    destruct i as [|i]; simpl in Hi.
    + injection Hi as <-. rewrite Forall_forall in Hy. apply Hy.
      eapply nth_error_In; eassumption.
    + apply (IH i j); [lia | assumption | assumption].
Qed.

End TakeDrop.

Lemma map_sorted (A B : Type) (f : A -> B) (R : B -> B -> Prop) (l : list A) :
  StronglySorted (fun x y => R (f x) (f y)) l -> StronglySorted R (map f l).
Proof.
  induction 1 as [|y tl Hs IH Hy]; simpl; constructor; [assumption|].
  rewrite Forall_forall in *. intros x Hx. apply in_map_iff in Hx.
  destruct Hx as [z [<- Hz]]. apply Hy, Hz.
Qed.

(** ** The order of float64

    [<=] is transitive, and total on the values that are not NaN (the ones
    equal to themselves). *)

Section FloatOrder.

Local Open Scope float_scope.

Lemma SFcompare_antisym (x y : spec_float) :
SFcompare y x = option_map CompOpp (SFcompare x y).
Proof.
destruct x as [s|s| |s m e], y as [s'|s'| |s' m' e']; simpl;
  try reflexivity; try (destruct s; reflexivity); try (destruct s'; reflexivity);
  try (destruct s, s'; reflexivity).
change (Pos.compare_cont Eq m m') with (Pos.compare m m').
change (Pos.compare_cont Eq m' m) with (Pos.compare m' m).
rewrite (Z.compare_antisym e e'), (Pos.compare_antisym m m').
destruct s, s'; simpl; try reflexivity;
  destruct (e ?= e')%Z; simpl; try reflexivity;
  destruct (m ?= m')%positive; reflexivity.
Qed.

Lemma SFleb_trans (x y z : spec_float) :
SFleb x y = true -> SFleb y z = true -> SFleb x z = true.
Proof.
unfold SFleb.
destruct x as [s|s| |s m e], y as [s'|s'| |s' m' e'], z as [s''|s''| |s'' m'' e'']; simpl;
  try discriminate; try reflexivity;
  try (destruct s; simpl; try discriminate; try reflexivity);
  try (destruct s'; simpl; try discriminate; try reflexivity);
  try (destruct s''; simpl; try discriminate; try reflexivity).
all: change (Pos.compare_cont Eq) with Pos.compare.
all: repeat match goal with
     | |- context [Z.compare ?a ?b] => destruct (Z.compare_spec a b); subst
     | |- context [Pos.compare ?a ?b] => destruct (Pos.compare_spec a b); subst
     end; simpl; try discriminate; try reflexivity; intros; try lia.
Qed.

Lemma float_leb_trans (x y z : float) :
(x <=? y) = true -> (y <=? z) = true -> (x <=? z) = true.
Proof. rewrite !leb_spec. apply SFleb_trans. Qed.

Lemma float_leb_total (x y : float) :
(x =? x) = true -> (y =? y) = true -> (x <=? y) = false -> (y <=? x) = true.
Proof.
rewrite !leb_spec, !eqb_spec. unfold SFleb, SFeqb.
rewrite (SFcompare_antisym (Prim2SF x) (Prim2SF y)).
destruct (Prim2SF x) as [s|s| |s m e];
  destruct (Prim2SF y) as [s'|s'| |s' m' e']; simpl; try discriminate; intros _ _;
  try (destruct s; simpl; congruence); try (destruct s'; simpl; congruence);
  try (destruct s, s'; simpl; congruence).
destruct s, s'; simpl; try congruence;
destruct (e ?= e')%Z; simpl; try congruence;
destruct (Pos.compare_cont Eq m m'); simpl; congruence.
Qed.

Lemma float_leb_not_ltb (x y : float) : (x <=? y) = true -> (y <? x) = false.
Proof.
rewrite leb_spec, ltb_spec. unfold SFleb, SFltb.
rewrite (SFcompare_antisym (Prim2SF x) (Prim2SF y)).
destruct (SFcompare (Prim2SF x) (Prim2SF y)) as [[ | | ]|]; simpl; congruence.
Qed.

Lemma float_ltb_not_leb (x y : float) : (x <? y) = true -> (y <=? x) = false.
Proof.
rewrite leb_spec, ltb_spec. unfold SFleb, SFltb.
rewrite (SFcompare_antisym (Prim2SF x) (Prim2SF y)).
destruct (SFcompare (Prim2SF x) (Prim2SF y)) as [[ | | ]|]; simpl; congruence.
Qed.

Lemma float_leb_not_nan (x y : float) : (x <=? y) = true -> (x =? x) = true /\ (y =? y) = true.
Proof.
rewrite leb_spec, !eqb_spec. unfold SFleb, SFeqb.
destruct (Prim2SF x) as [s|s| |s m e];
  destruct (Prim2SF y) as [s'|s'| |s' m' e']; simpl; try discriminate; intros _;
  repeat split; try reflexivity;
  try (destruct s; reflexivity); try (destruct s'; reflexivity).
all: rewrite Z.compare_refl; change (Pos.compare_cont Eq) with Pos.compare;
     rewrite Pos.compare_refl; try (destruct s; reflexivity); destruct s'; reflexivity.
Qed.

End FloatOrder.

(** ** Identifiers and their hexadecimal form *)

Lemma oid_eqb_eq (a b : ObjectID) : primitive.oid_eqb a b = true <-> a = b.
Proof.
  unfold primitive.oid_eqb. rewrite String.eqb_eq. split; [|congruence].
  intros H. rewrite <- (list_ascii_of_string_of_list_ascii a),
                    <- (list_ascii_of_string_of_list_ascii b). congruence.
Qed.

Lemma oid_eqb_refl (a : ObjectID) : primitive.oid_eqb a a = true.
Proof. apply oid_eqb_eq. reflexivity. Qed.

Lemma oid_eqb_neq (a b : ObjectID) : primitive.oid_eqb a b = false <-> a <> b.
Proof.
  rewrite <- oid_eqb_eq. destruct (primitive.oid_eqb a b); split; congruence.
Qed.






(** ** The collection *)

Lemma has_id_true (oid : ObjectID) (d : Driver.t) :
  Mongo.has_id oid d = true <-> Driver.ID d = oid.
Proof. apply oid_eqb_eq. Qed.

Lemma has_id_false (oid : ObjectID) (d : Driver.t) :
  Mongo.has_id oid d = false <-> Driver.ID d <> oid.
Proof. apply oid_eqb_neq. Qed.

Lemma has_plate_true (plate : string) (d : Driver.t) :
  Mongo.has_plate plate d = true <-> Driver.Plate d = plate.
Proof. apply String.eqb_eq. Qed.


Lemma find_none_iff (A : Type) (p : A -> bool) (l : list A) :
  find p l = None <-> (forall x, In x l -> p x = false).
Proof.
  split; [apply find_none|].
  induction l as [|y tl IH]; simpl; intros H; [reflexivity|].
  rewrite (H y (or_introl eq_refl)). apply IH. intros x Hx. apply H. right. exact Hx.
Qed.


(** Unfolds the state passing and the record updates of one step. *)
Ltac step :=
  unfold bind, ret, time_Now, NewObjectID, with_collection,
    Driver.set_ID, Driver.set_FirstName, Driver.set_LastName, Driver.set_Plate,
    Driver.set_TaxiType, Driver.set_CarBrand, Driver.set_CarModel,
    Driver.set_Location, Driver.set_CreatedAt, Driver.set_UpdatedAt;
  cbn [collection geo_distance find_ties clock ticks oid_source issued
       Driver.ID Driver.FirstName Driver.LastName Driver.Plate Driver.TaxiType
       Driver.CarBrand Driver.CarModel Driver.Location Driver.CreatedAt
       Driver.UpdatedAt fst snd].

(** ** CreateDriver followed by GetDriverByID *)



(** ** UpdateDriver *)

Lemma FromHex_not_empty (id : string) (oid : ObjectID) :
  primitive.ObjectIDFromHex id = Ok oid -> String.eqb id "" = false.
Proof.
  unfold primitive.ObjectIDFromHex. intros H. apply String.eqb_neq. intros ->.
  simpl in H. discriminate.
Qed.

(** What [FindByID] answers for a well-formed identifier. *)
Lemma FindByID_wellformed (id : string) (oid : ObjectID) (w : World) :
  primitive.ObjectIDFromHex id = Ok oid ->
  repository.FindByID id w
  = (match find (Mongo.has_id oid) (collection w) with
     | Some d => Ok d
     | None => Err (Errorf ("driver with ID " ++ id ++ " not found"))
     end, w).
Proof.
  intros H. unfold repository.FindByID.
  rewrite (FromHex_not_empty _ H), H. unfold Mongo.FindOne. step.
  destruct (find (Mongo.has_id oid) (collection w)); reflexivity.
Qed.

(** [GetDriverByID] succeeds exactly on the driver found under the
    identifier, and leaves the world as it was. *)
Lemma GetDriverByID_ok (id : string) (w w' : World) (d : Driver.t) :
  service.GetDriverByID id w = (Ok d, w') <->
  w' = w /\ exists oid, primitive.ObjectIDFromHex id = Ok oid
                        /\ find (Mongo.has_id oid) (collection w) = Some d.
Proof.
  unfold service.GetDriverByID. split.
  - destruct (String.eqb id "") eqn:E; [discriminate|].
    unfold bind, repository.FindByID. rewrite E.
    destruct (primitive.ObjectIDFromHex id) as [oid|e] eqn:F;
      [|cbn; destruct (Is e repository_ErrDriverNotFound); discriminate].
    unfold Mongo.FindOne. step.
    destruct (find (Mongo.has_id oid) (collection w)) as [x|] eqn:G;
      cbn; [|discriminate].
    intros H. injection H as -> ->. split; [reflexivity|]. exists oid. auto.
  - intros [-> [oid [F G]]]. rewrite (FromHex_not_empty _ F).
    unfold bind. rewrite (FindByID_wellformed _ w F), G. reflexivity.
Qed.





Lemma merge_keeps (req : UpdateDriverRequest.t) (d : Driver.t) :
  Driver.ID (service.merge req d) = Driver.ID d
  /\ Driver.Plate (service.merge req d) = Driver.Plate d
  /\ Driver.CreatedAt (service.merge req d) = Driver.CreatedAt d.
Proof.
  unfold service.merge.
  destruct (UpdateDriverRequest.FirstName req), (UpdateDriverRequest.LastName req),
    (UpdateDriverRequest.TaxiType req), (UpdateDriverRequest.CarBrand req),
    (UpdateDriverRequest.CarModel req), (UpdateDriverRequest.Lat req),
    (UpdateDriverRequest.Lon req); repeat split.
Qed.



(** ** Errors and their classification *)

(** No error the program makes on the spot is one of the error variables. *)
Lemma Is_Errorf (text : string) (v : error_var) : Is (Errorf text) v = false.
Proof. reflexivity. Qed.

Lemma Is_New (text : string) (v : error_var) : Is (New text) v = false.
Proof. reflexivity. Qed.

(** C4. A second create request with a stored plate is refused and the
    collection stays as it was, but the error the service returns is not
    [ErrDriverAlreadyExists] and wraps no error variable: the handler's
    test for the conflict fails and it answers 500, as for any other
    failure of the store, where the claim has a Conflict. *)
Theorem duplicate_plate_is_not_a_conflict (w : World) (req : CreateDriverRequest.t) :
  CreateDriverRequest.Validate req = None ->
  (exists d, In d (collection w)
             /\ Driver.Plate d = CreateDriverRequest.Plate req) ->
  exists e w',
    service.CreateDriver (Some req) w = (Err e, w')
    /\ collection w' = collection w
    /\ fst (Mongo.CountDocuments w') = fst (Mongo.CountDocuments w)
    /\ (forall v, Is e v = false)
    /\ fst (handlers.CreateDriver req w) = handlers.StatusInternalServerError
    /\ fst (handlers.CreateDriver req w) <> handlers.StatusConflict.
Proof.
  intros Hv [d [Hd Hp]].
  assert (Hchk : forall oid,
             existsb (fun x => Mongo.has_id oid x
                       || Mongo.has_plate (CreateDriverRequest.Plate req) x)
                     (collection w) = true).
  { intros oid. apply existsb_exists. exists d. split; [exact Hd|].
    apply orb_true_iff. right. apply has_plate_true. exact Hp. }
  unfold handlers.CreateDriver, service.CreateDriver. rewrite Hv.
  unfold repository.Create. step.
  destruct (primitive.IsZero (oid_source w (issued w)));
    unfold Mongo.InsertOne; step; rewrite Hchk; cbn [IsDuplicateKeyError fst snd Is];
    (eexists; eexists; split; [reflexivity|]);
    cbn [collection]; repeat split; try reflexivity; discriminate.
Qed.

Lemma duplicate_plate_is_not_a_conflict_witness :
  exists e w',
    service.CreateDriver (Some Examples.ali_again) Examples.one_driver = (Err e, w')
    /\ collection w' = collection Examples.one_driver
    /\ Is e service_ErrDriverAlreadyExists = false
    /\ fst (handlers.CreateDriver Examples.ali_again Examples.one_driver) = 500%Z.
Proof.
  destruct (duplicate_plate_is_not_a_conflict Examples.one_driver Examples.ali_again)
    as (e & w' & H1 & H2 & _ & H4 & H5 & _).
  - reflexivity.
  - exists Examples.ali_stored. split; [left|]; reflexivity.
  - exists e, w'. repeat split; auto.
Defined.

(** C5. [DeleteDriver] on a well-formed identifier that no stored driver
    has looks the driver up first, fails and leaves the world as it was;
    but the error is neither [ErrDriverNotFound] of the service nor wraps
    any error variable, so the handler answers 500 where the claim has a
    NotFound. *)
Theorem delete_absent_is_not_classified (w : World) (id : string) (oid : ObjectID) :
  primitive.ObjectIDFromHex id = Ok oid ->
  find (Mongo.has_id oid) (collection w) = None ->
  exists e,
    service.DeleteDriver id w = (Some e, w)
    /\ (forall v, Is e v = false)
    /\ handlers.DeleteDriver id w = (handlers.StatusInternalServerError, w)
    /\ handlers.StatusInternalServerError <> handlers.StatusNotFound.
Proof.
  intros F N.
  unfold handlers.DeleteDriver, handlers.isValidObjectID, service.DeleteDriver.
  rewrite (FromHex_not_empty _ F), F. cbn [is_ok negb].
  unfold bind. rewrite (FindByID_wellformed _ w F), N. cbn [Is].
  eexists. repeat split; try reflexivity. discriminate.
Qed.

Lemma delete_absent_is_not_classified_witness :
  exists e,
    service.DeleteDriver Examples.absent_id Examples.one_driver
    = (Some e, Examples.one_driver)
    /\ Is e service_ErrDriverNotFound = false
    /\ fst (handlers.DeleteDriver Examples.absent_id Examples.one_driver) = 500%Z.
Proof.
  destruct (@delete_absent_is_not_classified Examples.one_driver Examples.absent_id
              (Examples.oid_of_nat 8)) as (e & H1 & H2 & H3 & _).
  - reflexivity.
  - reflexivity.
  - exists e. rewrite H3. repeat split; auto.
Defined.

(** C7. A call of [FindNearbyDrivers] with a latitude or longitude out of
    range, or with a taxi category that is neither empty nor one of the
    three, fails with one and the same error in every world, so before the
    repository is asked anything; but that error is neither
    [ErrInvalidLocation] nor [ErrInvalidTaxiType] nor wraps any error
    variable, so the handler answers 500 where the claim has an
    InvalidLocation or InvalidTaxiType error. *)
Theorem nearby_rejection_is_not_classified (lat lon : float) (taxiType : string) :
  ((lat <? -90) || Float64.gtb lat 90
   || (lon <? -180) || Float64.gtb lon 180)%float = true
  \/ (taxiType <> ""%string /\ models.IsValidTaxiType taxiType = false) ->
  exists e,
    (forall w, service.FindNearbyDrivers lat lon taxiType w = (Err e, w))
    /\ (forall v, Is e v = false)
    /\ (forall w, handlers.FindNearbyDrivers lat lon taxiType w
                  = (handlers.StatusInternalServerError, w))
    /\ handlers.StatusInternalServerError <> handlers.StatusBadRequest.
Proof.
  intros H. unfold handlers.FindNearbyDrivers, service.FindNearbyDrivers, bind.
  destruct ((lat <? -90) || Float64.gtb lat 90)%float eqn:E1.
  { eexists. repeat split; try reflexivity. discriminate. }
  destruct ((lon <? -180) || Float64.gtb lon 180)%float eqn:E2.
  { eexists. repeat split; try reflexivity. discriminate. }
  destruct H as [H | [Hne Hinv]].
  { cbn [orb] in H. congruence. }
  apply String.eqb_neq in Hne. rewrite Hne, Hinv. cbn [negb andb].
  eexists. repeat split; try reflexivity. discriminate.
Qed.

Lemma nearby_rejection_is_not_classified_witness :
  (exists e,
      service.FindNearbyDrivers 200 29 "" Examples.two_drivers
      = (Err e, Examples.two_drivers)
      /\ Is e service_ErrInvalidLocation = false
      /\ fst (handlers.FindNearbyDrivers 200 29 "" Examples.two_drivers) = 500%Z)
  /\ (exists e,
      service.FindNearbyDrivers 41 29 "gold" Examples.two_drivers
      = (Err e, Examples.two_drivers)
      /\ Is e service_ErrInvalidTaxiType = false
      /\ fst (handlers.FindNearbyDrivers 41 29 "gold" Examples.two_drivers) = 500%Z).
Proof.
  split.
  - destruct (@nearby_rejection_is_not_classified 200 29 "") as (e & H1 & H2 & H3 & _).
    + left. reflexivity.
    + exists e. rewrite H1, H3. repeat split; auto.
  - destruct (@nearby_rejection_is_not_classified 41 29 "gold") as (e & H1 & H2 & H3 & _).
    + right. split; [discriminate | reflexivity].
    + exists e. rewrite H1, H3. repeat split; auto.
Defined.

(** ** The coordinates of a request *)

(** C1. A create request with latitude 0 and in every other respect valid
    is refused, and so is a location update to latitude 0 and longitude 0:
    [required] on a [float64] field fails on the zero value. The claim has
    every coordinate of the range accepted, 0 included. *)
Theorem zero_coordinate_is_refused :
  CreateDriverRequest.Validate Examples.ali = None
  /\ CreateDriverRequest.Validate Examples.ali_equator
     = Some (ValidationErrors [("Lat", "required")]%string)
  /\ UpdateLocationRequest.Validate (UpdateLocationRequest.mk 0 0)
     = Some (ValidationErrors [("Lat", "required"); ("Lon", "required")]%string)
  /\ UpdateDriverRequest.Validate
       (UpdateDriverRequest.mk None None None None None (Some 0%float) (Some 0%float))
     = None.
Proof. repeat split. Qed.

(** ** FindNearby and FindNearbyDrivers *)

Section Nearby.

Local Open Scope float_scope.

Variable w : World.
Variable near : GeoPoint.
Variable maxDistance : float.

Lemma run_geoNear_hits (p : Mongo.geo_doc) :
  In p (Mongo.run_geoNear w near maxDistance) -> geo_hit w near maxDistance p.
Proof.
  unfold Mongo.run_geoNear. intros H.
  apply (proj1 (In_sort_by _ _ _)) in H. apply filter_In in H.
  destruct H as [H Hle]. apply in_map_iff in H. destruct H as [d [<- Hd]].
  repeat split; assumption.
Qed.

Lemma run_geoNear_sorted :
  StronglySorted (ordered Mongo.nearer_first) (Mongo.run_geoNear w near maxDistance).
Proof.
  unfold Mongo.run_geoNear.
  apply sort_by_sorted with (good := fun p : Mongo.geo_doc => (snd p =? snd p) = true).
  - intros x y Gx Gy. apply float_leb_total; assumption.
  - intros x y z. apply float_leb_trans.
  - apply Forall_forall. intros p Hp. apply filter_In in Hp.
    destruct Hp as [_ Hle]. apply float_leb_not_nan in Hle. apply Hle.
Qed.

(** The stages after [$geoNear] only drop documents and keep the order. *)
Lemma run_stages_sub (stages : list Mongo.stage) (docs out : list Mongo.geo_doc) :
  Mongo.run_stages stages docs = Some out ->
  (forall p, In p out -> In p docs)
  /\ (StronglySorted (ordered Mongo.nearer_first) docs ->
      StronglySorted (ordered Mongo.nearer_first) out).
Proof.
  revert docs. induction stages as [|s rest IH]; simpl; intros docs H.
  - injection H as <-. auto.
  - destruct s as [? ?|t|n]; [discriminate| |].
    + apply IH in H. destruct H as [H1 H2]. split.
      * intros p Hp. apply H1 in Hp. apply filter_In in Hp. apply Hp.
      * intros S. apply H2. apply filter_sorted. exact S.
    + destruct (n <=? 0)%Z; [discriminate|].
      apply IH in H. destruct H as [H1 H2]. split.
      * intros p Hp. apply H1 in Hp. eapply In_take; eassumption.
      * intros S. apply H2. apply take_sorted. exact S.
Qed.

End Nearby.

Section NearbyService.

Local Open Scope float_scope.

Variable w : World.
Variables lat lon : float.
Hypothesis lat_lo : (-90 <=? lat) = true.
Hypothesis lat_hi : (lat <=? 90) = true.
Hypothesis lon_lo : (-180 <=? lon) = true.
Hypothesis lon_hi : (lon <=? 180) = true.

Lemma in_range_passes :
  ((lat <? -90) || Float64.gtb lat 90) = false
  /\ ((lon <? -180) || Float64.gtb lon 180) = false.
Proof.
  unfold Float64.gtb.
  rewrite (float_leb_not_ltb lat_lo), (float_leb_not_ltb lat_hi),
    (float_leb_not_ltb lon_lo), (float_leb_not_ltb lon_hi).
  split; reflexivity.
Qed.

(** What [FindNearby] computes on a point of the range with the radius of
    the service. *)
Lemma FindNearby_runs (taxiType : string) :
  exists docs,
    Mongo.run_stages (nearby_stages taxiType)
                     (Mongo.run_geoNear w (Point lon lat) 5000) = Some docs
    /\ repository.FindNearby lat lon 5 taxiType w
       = (Ok (map (fun result =>
                     DriverWithDistance.mk (fst result) (snd result / 1000))
                  docs), w).
Proof.
  destruct in_range_passes as [E1 E2].
  unfold repository.FindNearby. rewrite E1, E2.
  change (5 <=? 0) with false. change (5 * 1000) with 5000. cbv iota.
  unfold nearby_stages, Mongo.Aggregate, bind, ret.
  destruct (negb (String.eqb taxiType "") && models.IsValidTaxiType taxiType);
    cbn [app Mongo.run_stages Z.leb Z.compare];
    eexists; split; reflexivity.
Qed.

End NearbyService.

Lemma sorted_weaken (A : Type) (R R' : A -> A -> Prop) (l : list A) :
  (forall x y, In x l -> In y l -> R x y -> R' x y) ->
  StronglySorted R l -> StronglySorted R' l.
Proof.
  intros H S. induction S as [|x tl S IH Hx]; constructor.
  - apply IH. intros a b Ha Hb. apply H; right; assumption.
  - rewrite Forall_forall in *. intros y Hy. apply H; [left; reflexivity | right; exact Hy |].
    apply Hx, Hy.
Qed.

(** C6. [FindNearby] sends the query point as GeoJSON, the longitude
    first, while [Location] is stored as the sub-document [{lat, lon}],
    which the store reads as a longitude followed by a latitude. So, on a
    point of the range and an empty or valid taxi category, the distance an
    entry carries is the one the store measures from the query point to the
    point whose longitude is the driver's latitude and whose latitude is
    the driver's longitude; and when the store measures more than 5000
    metres between the query point and its mirror image, no driver located
    exactly at the query point is returned, where the claim has it returned
    with distance 0. *)
Theorem nearby_misses_the_driver_at_the_point
        (w : World) (lat lon : float) (taxiType : string) :
  (-90 <=? lat)%float = true -> (lat <=? 90)%float = true ->
  (-180 <=? lon)%float = true -> (lon <=? 180)%float = true ->
  taxiType = ""%string \/ models.IsValidTaxiType taxiType = true ->
  exists res,
    service.FindNearbyDrivers lat lon taxiType w = (Ok res, w)
    /\ (forall e, In e res ->
          DriverWithDistance.DistanceKm e
          = (geo_distance w (Point lon lat)
               (Point (Location.Lat (Driver.Location (DriverWithDistance.Driver e)))
                      (Location.Lon (Driver.Location (DriverWithDistance.Driver e))))
             / 1000)%float)
    /\ ((geo_distance w (Point lon lat) (Point lat lon) <=? 5000)%float = false ->
        forall e, In e res ->
                  Driver.Location (DriverWithDistance.Driver e) <> Location.mk lat lon).
Proof.
  intros lat_lo lat_hi lon_lo lon_hi Htaxi.
  destruct (FindNearby_runs w lat_lo lat_hi lon_lo lon_hi taxiType)
    as [docs [Hstages Hrepo]].
  destruct (in_range_passes lat_lo lat_hi lon_lo lon_hi) as [E1 E2].
  pose proof (run_stages_sub _ _ Hstages) as [Hsub _].
  assert (Hhit : forall p, In p docs -> geo_hit w (Point lon lat) 5000 p).
  { intros p Hp. apply run_geoNear_hits, Hsub, Hp. }
  eexists. split.
  { unfold service.FindNearbyDrivers. rewrite E1, E2.
    assert (T : negb (String.eqb taxiType "") && negb (models.IsValidTaxiType taxiType)
                = false).
    { destruct Htaxi as [-> | ->]; [reflexivity | apply andb_false_r]. }
    rewrite T. unfold bind. rewrite Hrepo. reflexivity. }
  split.
  - intros e He. apply in_map_iff in He. destruct He as [p [<- Hp]].
    destruct (Hhit p Hp) as [_ [H2 _]]. cbn. rewrite H2. reflexivity.
  - intros Hfar e He Hloc. apply in_map_iff in He. destruct He as [p [<- Hp]].
    destruct (Hhit p Hp) as [_ [H2 H3]]. cbn in Hloc.
    rewrite H2, Hloc in H3. unfold Mongo.position in H3. cbn in H3. congruence.
Qed.

Lemma nearby_misses_the_driver_at_the_point_witness :
  In Examples.ali_stored (collection Examples.two_drivers)
  /\ Driver.Location Examples.ali_stored = Location.mk 41 29
  /\ exists res,
       service.FindNearbyDrivers 41 29 "" Examples.two_drivers
       = (Ok res, Examples.two_drivers)
       /\ res = []
       /\ forall e, In e res ->
                    Driver.Location (DriverWithDistance.Driver e) <> Location.mk 41 29.
Proof.
  split; [vm_compute; left; reflexivity|]. split; [reflexivity|].
  destruct (@nearby_misses_the_driver_at_the_point Examples.two_drivers 41 29 "")
    as (res & H1 & _ & H3); try reflexivity.
  - left. reflexivity.
  - exists res. split; [exact H1|]. split.
    + apply (f_equal fst) in H1. vm_compute in H1. congruence.
    + apply H3. vm_compute. reflexivity.
Defined.



(** ** ListDrivers *)

Lemma wrap_small (z : Z) : (0 <= z <= GoInt.max_int)%Z -> GoInt.wrap z = z.
Proof.
  unfold GoInt.wrap, GoInt.max_int. intros H.
  rewrite Z.mod_small; lia.
Qed.

(** Whatever the store does with equal sort keys, the documents of a
    sorted [Find] stand newest first. *)
Lemma newer_first_sorted (ties : Driver.t -> Driver.t -> bool) (c : list Driver.t) :
  StronglySorted (ordered Mongo.newer_first) (sort_by (Mongo.find_order ties) c).
Proof.
  apply sort_by_sorted_by_key; unfold ordered, Mongo.find_order, Mongo.newer_first.
  - intros x y H. destruct (Driver.CreatedAt x =? Driver.CreatedAt y)%Z eqn:E.
    + apply Z.eqb_eq in E. apply Z.leb_le. lia.
    + exact H.
  - intros x y H. destruct (Driver.CreatedAt x =? Driver.CreatedAt y)%Z eqn:E.
    + apply Z.eqb_eq in E. apply Z.leb_le. lia.
    + apply Z.leb_gt in H. apply Z.leb_le. lia.
  - intros x y z H1 H2. apply Z.leb_le in H1, H2. apply Z.leb_le. lia.
Qed.

(** What [ListDrivers] does, whatever the two numbers are: it fails when
    the offset of the page, wrapped to an [int], is negative, and else
    returns the slice that the offset and the page size in use cut out of
    the drivers, newest first. *)
Lemma ListDrivers_runs (w : World) (page pageSize : Z) :
  let p := Z.max 1 page in
  let s := if (pageSize <? 1)%Z then 10%Z else Z.min 100 pageSize in
  let skip := GoInt.mul (GoInt.sub p 1) s in
  (1 <= s <= 100)%Z
  /\ service.ListDrivers page pageSize w
     = if (skip <? 0)%Z
       then (Err (Wrapf "failed to list drivers: "
                    (Wrapf "failed to find drivers: " (WriteException CommandFailed))),
             w)
       else (Ok (PaginatedResponse.mk
                   (take s (drop skip
                              (sort_by (Mongo.find_order (find_ties w skip s))
                                       (collection w))))
                   p s (Z.of_nat (List.length (collection w)))
                   (Float64.ceil_to_int
                      (Float64.of_int (Z.of_nat (List.length (collection w)))
                       / Float64.of_int s)%float)), w).
Proof.
  intros p' s' skip.
  set (p := if (page <? 1)%Z then 1%Z else page).
  set (s0 := if (pageSize <? 1)%Z then 10%Z else pageSize).
  set (s := if (100 <? s0)%Z then 100%Z else s0).
  assert (Hp : p = p').
  { unfold p, p'. destruct (page <? 1)%Z eqn:E;
      [apply Z.ltb_lt in E | apply Z.ltb_ge in E]; lia. }
  assert (Hs : s = s').
  { unfold s, s0, s'. destruct (pageSize <? 1)%Z eqn:E; [reflexivity|].
    destruct (100 <? pageSize)%Z eqn:F;
      [apply Z.ltb_lt in F | apply Z.ltb_ge in F]; lia. }
  assert (Hs' : (1 <= s <= 100)%Z).
  { rewrite Hs. unfold s'. destruct (pageSize <? 1)%Z eqn:E; [lia|].
    apply Z.ltb_ge in E. lia. }
  split; [rewrite <- Hs; exact Hs'|].
  unfold skip. rewrite <- Hp, <- Hs.
  unfold service.ListDrivers, repository.FindAll. fold p. fold s0. fold s.
  assert (I1 : (if (p <? 1)%Z then 1%Z else p) = p).
  { destruct (p <? 1)%Z eqn:E; [apply Z.ltb_lt in E; lia | reflexivity]. }
  assert (I2 : (if (s <? 1)%Z then 10%Z else s) = s).
  { destruct (s <? 1)%Z eqn:E; [apply Z.ltb_lt in E; lia | reflexivity]. }
  assert (I3 : (if (100 <? s)%Z then 100%Z else s) = s).
  { destruct (100 <? s)%Z eqn:E; [apply Z.ltb_lt in E; lia | reflexivity]. }
  rewrite I1, I2, I3.
  unfold Mongo.CountDocuments, Mongo.Find, Mongo.take_limit, bind, ret.
  assert (N2 : (s =? 0)%Z = false) by (apply Z.eqb_neq; lia).
  rewrite N2, (Z.abs_eq s) by lia.
  destruct (GoInt.mul (GoInt.sub p 1) s <? 0)%Z; reflexivity.
Qed.

(** When the offset of the page fits an [int] it does not wrap, and
    [ListDrivers] succeeds. *)
Lemma ListDrivers_page (w : World) (page pageSize : Z) :
  let p := Z.max 1 page in
  let s := if (pageSize <? 1)%Z then 10%Z else Z.min 100 pageSize in
  ((p - 1) * s <= GoInt.max_int)%Z ->
  exists totalPages,
    service.ListDrivers page pageSize w
    = (Ok (PaginatedResponse.mk
             (take s (drop ((p - 1) * s)
                        (sort_by (Mongo.find_order (find_ties w ((p - 1) * s) s))
                                 (collection w))))
             p s (Z.of_nat (List.length (collection w))) totalPages), w).
Proof.
  intros p s Hfit.
  destruct (ListDrivers_runs w page pageSize) as [Hs H]. fold p s in Hs, H.
  assert (Hskip : GoInt.mul (GoInt.sub p 1) s = ((p - 1) * s)%Z
                  /\ (0 <= (p - 1) * s)%Z).
  { assert (1 <= p)%Z by (unfold p; lia).
    unfold GoInt.mul, GoInt.sub. unfold GoInt.max_int in Hfit.
    rewrite (@wrap_small (p - 1)) by (unfold GoInt.max_int; nia).
    split; [apply wrap_small; unfold GoInt.max_int; nia | nia]. }
  destruct Hskip as [Hskip Hpos]. rewrite Hskip in H.
  assert (N1 : ((p - 1) * s <? 0)%Z = false) by (apply Z.ltb_ge; lia).
  rewrite N1 in H. eexists. exact H.
Qed.

(** The claim fails in two places. At page size 0 the service lists with
    the default size 10, where clamping 0 into [1, 100] gives 1. And a
    pair of [int]s is rejected: at page 2^62 + 1 and page size 2 the
    offset 2^63 wraps to -2^63, which the store refuses. *)
Lemma not_clamped_and_not_always_accepted :
  ~ (forall (w : World) (page pageSize : Z) (r : PaginatedResponse.t),
        fst (service.ListDrivers page pageSize w) = Ok r ->
        PaginatedResponse.PageSize r = clamp 1 100 pageSize)
  /\ ~ (forall (w : World) (page pageSize : Z),
          GoInt.in_range page -> GoInt.in_range pageSize ->
          is_ok (fst (service.ListDrivers page pageSize w)) = true).
Proof.
  split; intros H.
  - specialize (H Examples.empty_world 1%Z 0%Z
                  (PaginatedResponse.mk [] 1 10 0 0) eq_refl).
    discriminate H.
  - specialize (H Examples.empty_world 4611686018427387905%Z 2%Z).
    unfold GoInt.in_range, GoInt.min_int, GoInt.max_int in H.
    assert (F : is_ok (fst (service.ListDrivers 4611686018427387905 2
                              Examples.empty_world)) = false)
      by (vm_compute; reflexivity).
    rewrite H in F by lia. discriminate F.
Qed.

(** C8, amended. Whatever the two numbers are, a page below 1 becomes 1, a
    page size below 1 becomes the default 10 and one above 100 becomes 100,
    so the size used lies in [1, 100]. [ListDrivers] succeeds whenever the
    offset of that page with that size fits an [int]; and whenever it
    succeeds, the page returned holds at most that many stored drivers, the
    newest created first. *)
Theorem list_drivers_normalises (w : World) (page pageSize : Z) :
  let size := if (pageSize <? 1)%Z then 10%Z else Z.min 100 pageSize in
  (1 <= size <= 100)%Z
  /\ (((Z.max 1 page - 1) * size <= GoInt.max_int)%Z ->
      exists r, service.ListDrivers page pageSize w = (Ok r, w))
  /\ (forall r,
        fst (service.ListDrivers page pageSize w) = Ok r ->
        PaginatedResponse.Page r = Z.max 1 page
        /\ PaginatedResponse.PageSize r = size
        /\ (Z.of_nat (List.length (PaginatedResponse.Data r)) <= size)%Z
        /\ (forall d, In d (PaginatedResponse.Data r) -> In d (collection w))
        /\ StronglySorted (fun a b => (Driver.CreatedAt b <= Driver.CreatedAt a)%Z)
                          (PaginatedResponse.Data r)
        /\ PaginatedResponse.TotalCount r = Z.of_nat (List.length (collection w))).
Proof.
  intros size. destruct (ListDrivers_runs w page pageSize) as [Hs H]. fold size in Hs, H.
  split; [exact Hs|]. split.
  - intros Hfit. destruct (@ListDrivers_page w page pageSize Hfit) as [tp Hp].
    eexists. exact Hp.
  - intros r Hr. rewrite H in Hr.
    destruct (GoInt.mul (GoInt.sub (Z.max 1 page) 1) size <? 0)%Z; [discriminate|].
    cbn [fst] in Hr. injection Hr as <-.
    cbn [PaginatedResponse.Page PaginatedResponse.PageSize PaginatedResponse.Data
         PaginatedResponse.TotalCount].
    repeat split.
    + apply length_take. lia.
    + intros d Hd. apply In_take, In_drop in Hd.
      apply (proj1 (In_sort_by _ _ _)) in Hd. exact Hd.
    + apply take_sorted, drop_sorted.
      eapply sorted_weaken; [|apply newer_first_sorted].
      intros x y _ _ Hxy. apply Z.leb_le. exact Hxy.
Qed.

Lemma list_drivers_normalises_witness :
  exists r,
    service.ListDrivers 0 100000 Examples.two_drivers = (Ok r, Examples.two_drivers)
    /\ PaginatedResponse.Page r = 1%Z
    /\ PaginatedResponse.PageSize r = 100%Z
    /\ (Z.of_nat (List.length (PaginatedResponse.Data r)) <= 100)%Z.
Proof.
  destruct (@list_drivers_normalises Examples.two_drivers 0 100000) as (_ & H1 & H2).
  destruct H1 as [r Hr]; [vm_compute; discriminate|].
  exists r. split; [exact Hr|].
  destruct (H2 r) as (P1 & P2 & P3 & _); [rewrite Hr; reflexivity|].
  repeat split; assumption.
Defined.

(** C9. Page 2^58 + 1 with page size 64: the offset [(page - 1) * 64] is
    2^64 and wraps to 0, so [ListDrivers] returns the first page, both
    stored drivers, for a page far beyond the one page there is; the claim
    has zero records there. Page 2 of the same listing is empty. *)
Theorem page_beyond_total_returns_records :
  GoInt.in_range 288230376151711745
  /\ (exists r,
        service.ListDrivers 288230376151711745 64 Examples.two_drivers
        = (Ok r, Examples.two_drivers)
        /\ PaginatedResponse.Page r = 288230376151711745%Z
        /\ PaginatedResponse.TotalCount r = 2%Z
        /\ PaginatedResponse.TotalPages r = 1%Z
        /\ List.length (PaginatedResponse.Data r) = 2%nat)
  /\ (exists r,
        service.ListDrivers 2 64 Examples.two_drivers = (Ok r, Examples.two_drivers)
        /\ PaginatedResponse.TotalPages r = 1%Z
        /\ PaginatedResponse.Data r = []).
Proof.
  split; [unfold GoInt.in_range, GoInt.min_int, GoInt.max_int; lia|].
  split; eexists; (split; [vm_compute; reflexivity|]); repeat split.
Qed.

(* ================================================================= *)
(** * Further properties *)

(** ** What the three requests accept *)

Lemma flat_map_nil (A B : Type) (f : A -> list B) (l : list A) :
  flat_map f l = [] <-> Forall (fun x => f x = []) l.
Proof.
  induction l as [|x tl IH]; simpl.
  - split; [constructor | reflexivity].
  - split.
    + intros H. apply app_eq_nil in H. destruct H as [H1 H2].
      constructor; [exact H1 | apply IH, H2].
    + intros H. inversion H as [|? ? H1 H2]; subst.
      rewrite H1. apply IH, H2.
Qed.

(** [validate.Struct] is content exactly when no field has an error. *)
Lemma Struct_None (fields : list Validator.field) :
  Validator.Struct fields = None
  <-> Forall (fun f => Validator.field_errors f = []) fields.
Proof.
  unfold Validator.Struct. rewrite <- flat_map_nil.
  destruct (flat_map Validator.field_errors fields); split; congruence.
Qed.

Lemma empty_has_no_runes : GoString.RuneCountInString "" = 0%Z.
Proof. reflexivity. Qed.

(** [required,min=lo,max=hi] on a string with [lo] at least 1: the length
    decides, the empty text being too short. *)
Lemma text_field_ok (name : string) (s : string) (lo hi : Z) :
  (1 <= lo)%Z ->
  Validator.field_errors
    (Validator.Field name false (Some (Validator.VString s))
       [Validator.required; Validator.min lo; Validator.max hi]) = []
  <-> length_within lo hi s = true.
Proof.
  intros Hlo. unfold Validator.field_errors, length_within. cbn.
  destruct (String.eqb s "") eqn:E; cbn.
  - apply String.eqb_eq in E. subst s. rewrite empty_has_no_runes.
    assert (F : (lo <=? 0)%Z = false) by (apply Z.leb_gt; lia).
    rewrite F. split; discriminate.
  - destruct (lo <=? GoString.RuneCountInString s)%Z; cbn; [|split; discriminate].
    destruct (GoString.RuneCountInString s <=? hi)%Z; cbn; split; congruence.
Qed.

(** The bits of a float are all zero exactly when it is the positive
    zero. *)
Lemma bits_are_zero_false (x : float) :
  Float64.bits_are_zero x = false <-> classify x <> PZero.
Proof.
  unfold Float64.bits_are_zero.
  destruct (classify x); split; congruence.
Qed.

(** [required,min=lo,max=hi] on a [float64]: a number of the range that is
    not the positive zero. *)
Lemma number_field_ok (name : string) (x : float) (lo hi : Z) :
  Validator.field_errors
    (Validator.Field name false (Some (Validator.VFloat x))
       [Validator.required; Validator.min lo; Validator.max hi]) = []
  <-> (negb (Float64.bits_are_zero x) && within lo hi x) = true.
Proof.
  unfold Validator.field_errors, within, Float64.geb. cbn.
  destruct (Float64.bits_are_zero x); cbn; [split; discriminate|].
  destruct (Float64.of_Z lo <=? x)%float; cbn; [|split; discriminate].
  destruct (x <=? Float64.of_Z hi)%float; cbn; split; congruence.
Qed.

(** [omitempty,min=lo,max=hi] on a [*string] and on a [*float64]: nothing
    is asked of a nil pointer, and what a pointer points to is checked
    whatever it is, the empty text and zero included. *)
Lemma optional_text_field_ok (name : string) (o : option string) (lo hi : Z) :
  Validator.field_errors
    (Validator.Field name true (option_map Validator.VString o)
       [Validator.omitempty; Validator.min lo; Validator.max hi]) = []
  <-> when_present (length_within lo hi) o = true.
Proof.
  unfold Validator.field_errors, length_within. destruct o as [s|]; cbn.
  - destruct (lo <=? GoString.RuneCountInString s)%Z; cbn; [|split; discriminate].
    destruct (GoString.RuneCountInString s <=? hi)%Z; cbn; split; congruence.
  - split; reflexivity.
Qed.

Lemma optional_number_field_ok (name : string) (o : option float) (lo hi : Z) :
  Validator.field_errors
    (Validator.Field name true (option_map Validator.VFloat o)
       [Validator.omitempty; Validator.min lo; Validator.max hi]) = []
  <-> when_present (within lo hi) o = true.
Proof.
  unfold Validator.field_errors, within, Float64.geb. destruct o as [x|]; cbn.
  - destruct (Float64.of_Z lo <=? x)%float; cbn; [|split; discriminate].
    destruct (x <=? Float64.of_Z hi)%float; cbn; split; congruence.
  - split; reflexivity.
Qed.

Lemma taxi_types_are_valid (s : string) :
  existsb (String.eqb s) models.taxi_types = models.IsValidTaxiType s.
Proof.
  unfold models.taxi_types, models.IsValidTaxiType, models.TaxiTypeSari,
    models.TaxiTypeTurkuaz, models.TaxiTypeSiyah. cbn [existsb].
  rewrite orb_false_r, orb_assoc. reflexivity.
Qed.

(** X1. A create request passes validation exactly when the names have 2
    to 50 runes, the plate matches the pattern, the taxi category is one of
    the three, the car brand has 2 to 30 runes and the car model 1 to 30,
    and latitude and longitude lie in [-90, 90] and [-180, 180] and are not
    the positive zero; the negative zero passes. *)
Theorem create_request_accepted (r : CreateDriverRequest.t) :
  CreateDriverRequest.Validate r = None
  <-> length_within 2 50 (CreateDriverRequest.FirstName r) = true
      /\ length_within 2 50 (CreateDriverRequest.LastName r) = true
      /\ models.TurkishLicensePlateValidator (CreateDriverRequest.Plate r) = true
      /\ models.IsValidTaxiType (CreateDriverRequest.TaxiType r) = true
      /\ length_within 2 30 (CreateDriverRequest.CarBrand r) = true
      /\ length_within 1 30 (CreateDriverRequest.CarModel r) = true
      /\ classify (CreateDriverRequest.Lat r) <> PZero
      /\ within (-90) 90 (CreateDriverRequest.Lat r) = true
      /\ classify (CreateDriverRequest.Lon r) <> PZero
      /\ within (-180) 180 (CreateDriverRequest.Lon r) = true.
Proof.
  unfold CreateDriverRequest.Validate, CreateDriverRequest.fields.
  rewrite Struct_None.
  assert (P : Validator.field_errors
                (Validator.Field "Plate" false
                   (Some (Validator.VString (CreateDriverRequest.Plate r)))
                   [Validator.required; models.turkish_plate]) = []
              <-> models.TurkishLicensePlateValidator (CreateDriverRequest.Plate r) = true).
  { unfold Validator.field_errors. cbn.
    destruct (String.eqb (CreateDriverRequest.Plate r) "") eqn:E; cbn.
    - apply String.eqb_eq in E. rewrite E. split; discriminate.
    - destruct (models.TurkishLicensePlateValidator (CreateDriverRequest.Plate r));
        split; congruence. }
  assert (T : Validator.field_errors
                (Validator.Field "TaxiType" false
                   (Some (Validator.VString (CreateDriverRequest.TaxiType r)))
                   [Validator.required; Validator.oneof models.taxi_types]) = []
              <-> models.IsValidTaxiType (CreateDriverRequest.TaxiType r) = true).
  { rewrite <- taxi_types_are_valid. unfold Validator.field_errors.
    cbn [Validator.run_tags Validator.field_name Validator.is_pointer Validator.holds
         Validator.tags Validator.passes Validator.hasValue Validator.IsZero negb].
    destruct (String.eqb (CreateDriverRequest.TaxiType r) "") eqn:E; cbn [negb].
    - apply String.eqb_eq in E. rewrite E. split; discriminate.
    - destruct (existsb (String.eqb (CreateDriverRequest.TaxiType r)) models.taxi_types);
        split; congruence. }
  split.
  - intros H. repeat match goal with
                     | H : Forall _ (_ :: _) |- _ => inversion H; clear H; subst
                     end.
    repeat match goal with
           | H : Validator.field_errors (Validator.Field _ _ (Some (Validator.VString _))
                   [Validator.required; Validator.min _; Validator.max _]) = [] |- _ =>
               apply text_field_ok in H; [|lia]
           | H : Validator.field_errors (Validator.Field _ _ (Some (Validator.VFloat _)) _) = []
             |- _ => apply number_field_ok in H; apply andb_true_iff in H;
                     destruct H as [? ?]
           end.
    repeat match goal with
           | H : negb _ = true |- _ =>
               apply negb_true_iff in H; apply bits_are_zero_false in H
           end.
    apply P in H3. apply T in H4. repeat split; assumption.
  - intros (H1 & H2 & H3 & H4 & H5 & H6 & H7 & H8 & H9 & H10).
    repeat constructor.
    + apply text_field_ok; [lia | exact H1].
    + apply text_field_ok; [lia | exact H2].
    + apply P, H3.
    + apply T, H4.
    + apply text_field_ok; [lia | exact H5].
    + apply text_field_ok; [lia | exact H6].
    + apply number_field_ok. apply bits_are_zero_false in H7.
      rewrite H7, H8. reflexivity.
    + apply number_field_ok. apply bits_are_zero_false in H9.
      rewrite H9, H10. reflexivity.
Qed.

(** X2. A partial update request passes validation exactly when every
    field that is present satisfies its constraint; nothing is asked of an
    absent field. A present latitude or longitude only has to lie in its
    range: zero passes, and one coordinate may come without the other. *)
Theorem update_request_accepted (r : UpdateDriverRequest.t) :
  UpdateDriverRequest.Validate r = None
  <-> when_present (length_within 2 50) (UpdateDriverRequest.FirstName r) = true
      /\ when_present (length_within 2 50) (UpdateDriverRequest.LastName r) = true
      /\ when_present models.IsValidTaxiType (UpdateDriverRequest.TaxiType r) = true
      /\ when_present (length_within 2 30) (UpdateDriverRequest.CarBrand r) = true
      /\ when_present (length_within 1 30) (UpdateDriverRequest.CarModel r) = true
      /\ when_present (within (-90) 90) (UpdateDriverRequest.Lat r) = true
      /\ when_present (within (-180) 180) (UpdateDriverRequest.Lon r) = true.
Proof.
  unfold UpdateDriverRequest.Validate, UpdateDriverRequest.fields.
  rewrite Struct_None.
  assert (T : Validator.field_errors
                (Validator.Field "TaxiType" true
                   (option_map Validator.VString (UpdateDriverRequest.TaxiType r))
                   [Validator.omitempty; Validator.oneof models.taxi_types]) = []
              <-> when_present models.IsValidTaxiType (UpdateDriverRequest.TaxiType r)
                  = true).
  { unfold Validator.field_errors.
    destruct (UpdateDriverRequest.TaxiType r) as [s|];
      cbn [option_map when_present Validator.run_tags Validator.field_name
           Validator.is_pointer Validator.holds Validator.tags Validator.passes
           Validator.hasValue]; [|split; reflexivity].
    rewrite taxi_types_are_valid.
    destruct (models.IsValidTaxiType s); split; congruence. }
  split.
  - intros H.
    inversion H as [|? ? F1 H1]; subst. inversion H1 as [|? ? F2 H2]; subst.
    inversion H2 as [|? ? F3 H3]; subst. inversion H3 as [|? ? F4 H4]; subst.
    inversion H4 as [|? ? F5 H5]; subst. inversion H5 as [|? ? F6 H6]; subst.
    inversion H6 as [|? ? F7 H7]; subst.
    apply optional_text_field_ok in F1, F2, F4, F5.
    apply optional_number_field_ok in F6, F7.
    apply T in F3. repeat split; assumption.
  - intros (H1 & H2 & H3 & H4 & H5 & H6 & H7).
    repeat constructor.
    + apply optional_text_field_ok, H1.
    + apply optional_text_field_ok, H2.
    + apply T, H3.
    + apply optional_text_field_ok, H4.
    + apply optional_text_field_ok, H5.
    + apply optional_number_field_ok, H6.
    + apply optional_number_field_ok, H7.
Qed.

(** X3. A location update passes validation exactly when latitude and
    longitude lie in [-90, 90] and [-180, 180] and neither is the positive
    zero; the negative zero passes. *)
Theorem location_request_accepted (r : UpdateLocationRequest.t) :
  UpdateLocationRequest.Validate r = None
  <-> classify (UpdateLocationRequest.Lat r) <> PZero
      /\ within (-90) 90 (UpdateLocationRequest.Lat r) = true
      /\ classify (UpdateLocationRequest.Lon r) <> PZero
      /\ within (-180) 180 (UpdateLocationRequest.Lon r) = true.
Proof.
  unfold UpdateLocationRequest.Validate, UpdateLocationRequest.fields.
  rewrite Struct_None. split.
  - intros H. inversion H as [|? ? F1 H1]; subst. inversion H1 as [|? ? F2 H2]; subst.
    apply number_field_ok in F1, F2.
    apply andb_true_iff in F1, F2. destruct F1 as [A1 B1], F2 as [A2 B2].
    apply negb_true_iff in A1, A2. apply bits_are_zero_false in A1, A2.
    repeat split; assumption.
  - intros (H1 & H2 & H3 & H4). repeat constructor.
    + apply number_field_ok. apply bits_are_zero_false in H1.
      rewrite H1, H2. reflexivity.
    + apply number_field_ok. apply bits_are_zero_false in H3.
      rewrite H3, H4. reflexivity.
Qed.

(** ** The plate pattern *)

Lemma take_while_split (p : ascii -> bool) (l : list ascii) :
  (models.take_while p l ++ skipn (List.length (models.take_while p l)) l)%list = l
  /\ forallb p (models.take_while p l) = true.
Proof.
  induction l as [|c tl [IH1 IH2]]; simpl; [auto|].
  destruct (p c) eqn:E; simpl; [|auto].
  rewrite IH1, E, IH2. auto.
Qed.

Lemma take_while_app (p : ascii -> bool) (l r : list ascii) :
  forallb p l = true ->
  match r with [] => True | c :: _ => p c = false end ->
  models.take_while p (l ++ r) = l.
Proof.
  intros Hl Hr. induction l as [|c tl IH]; simpl in *.
  - destruct r as [|c r']; simpl; [reflexivity|]. rewrite Hr. reflexivity.
  - apply andb_true_iff in Hl. destruct Hl as [Hc Htl].
    rewrite Hc, (IH Htl). reflexivity.
Qed.

Lemma digit_is_no_letter (c : ascii) :
  models.is_digit c = true -> models.is_letter c = false.
Proof.
  unfold models.is_digit, models.is_letter, GoString.between.
  intros H. apply andb_true_iff in H. destruct H as [H1 H2].
  apply N.leb_le in H1, H2. apply orb_false_iff. split;
    apply andb_false_iff; [left | left]; apply N.leb_gt; lia.
Qed.

(** X4. A plate is accepted exactly when, every tab, newline, form feed,
    carriage return and space removed, it is two digits, then one to three
    letters of A-Z or a-z, then one to four digits, and nothing more. *)
Theorem plate_accepted (plate : string) :
  models.TurkishLicensePlateValidator plate = true
  <-> exists d1 d2 letters digits,
        filter (fun c => negb (models.is_space c)) (list_ascii_of_string plate)
        = (d1 :: d2 :: letters ++ digits)%list
        /\ models.is_digit d1 = true /\ models.is_digit d2 = true
        /\ forallb models.is_letter letters = true
        /\ (1 <= List.length letters <= 3)%nat
        /\ forallb models.is_digit digits = true
        /\ (1 <= List.length digits <= 4)%nat.
Proof.
  unfold models.TurkishLicensePlateValidator.
  set (s := filter (fun c => negb (models.is_space c)) (list_ascii_of_string plate)).
  unfold models.plate_pattern. split.
  - destruct s as [|d1 [|d2 rest]]; try discriminate.
    intros H.
    repeat (apply andb_true_iff in H; destruct H as [H ?]).
    destruct (take_while_split models.is_letter rest) as [Hsplit Hletters].
    exists d1, d2, (models.take_while models.is_letter rest),
      (skipn (List.length (models.take_while models.is_letter rest)) rest).
    rewrite Hsplit.
    repeat match goal with
           | H : (_ <=? _)%nat = true |- _ => apply Nat.leb_le in H
           end.
    repeat split; try assumption; try reflexivity.
    unfold models.is_digit, GoString.between.
    apply andb_true_iff; split; assumption.
  - intros (d1 & d2 & letters & digits & Hs & H1 & H2 & Hl & [Hl1 Hl2] & Hd & [Hd1 Hd2]).
    rewrite Hs.
    assert (T : models.take_while models.is_letter (letters ++ digits) = letters).
    { apply take_while_app; [exact Hl|].
      destruct digits as [|c r]; [exact I|].
      simpl in Hd. apply andb_true_iff in Hd. apply digit_is_no_letter, Hd. }
    rewrite T, skipn_app, skipn_all, Nat.sub_diag. cbn [skipn app].
    rewrite H1, H2, Hd. cbn [andb].
    repeat (apply andb_true_iff; split); try apply Nat.leb_le; assumption || reflexivity.
Qed.

(** ** UpdateDriverLocation and DeleteDriver *)



Lemma find_remove_first (oid : ObjectID) (c : list Driver.t) :
  NoDup (map Driver.ID c) -> find (Mongo.has_id oid) (Mongo.remove_first oid c) = None.
Proof.
  induction c as [|x tl IH]; simpl; intros N; [reflexivity|].
  inversion N as [|? ? Hx Ntl]; subst.
  destruct (Mongo.has_id oid x) eqn:E; simpl.
  - apply find_none_iff. intros y Hy. apply has_id_false. intros Hid.
    apply has_id_true in E. apply Hx. rewrite E, <- Hid. apply in_map, Hy.
  - rewrite E. apply IH, Ntl.
Qed.

Lemma find_remove_first_other (oid oid' : ObjectID) (c : list Driver.t) :
  oid' <> oid ->
  find (Mongo.has_id oid') (Mongo.remove_first oid c) = find (Mongo.has_id oid') c.
Proof.
  intros N. induction c as [|x tl IH]; simpl; [reflexivity|].
  destruct (Mongo.has_id oid x) eqn:E; simpl.
  - apply has_id_true in E.
    assert (F : Mongo.has_id oid' x = false) by (apply has_id_false; congruence).
    rewrite F. reflexivity.
  - rewrite IH. reflexivity.
Qed.

Lemma length_remove_first (oid : ObjectID) (c : list Driver.t) (d : Driver.t) :
  find (Mongo.has_id oid) c = Some d ->
  S (List.length (Mongo.remove_first oid c)) = List.length c.
Proof.
  induction c as [|x tl IH]; simpl; [discriminate|].
  destruct (Mongo.has_id oid x); simpl; [reflexivity|].
  intros H. rewrite (IH H). reflexivity.
Qed.

(** X6. [DeleteDriver] on a stored driver succeeds and removes that driver
    and no other: afterwards [GetDriverByID] on the identifier fails, every
    other identifier finds what it found before, and the collection is one
    document shorter. *)
Theorem delete_removes_the_driver (w : World) (id : string) (d : Driver.t) :
  NoDup (map Driver.ID (collection w)) ->
  fst (service.GetDriverByID id w) = Ok d ->
  exists w',
    service.DeleteDriver id w = (None, w')
    /\ is_ok (fst (service.GetDriverByID id w')) = false
    /\ (forall other, other <> Driver.ID d ->
          find (Mongo.has_id other) (collection w')
          = find (Mongo.has_id other) (collection w))
    /\ S (List.length (collection w')) = List.length (collection w).
Proof.
  intros N Hget.
  destruct (service.GetDriverByID id w) as [r w0] eqn:G. simpl in Hget. subst r.
  apply GetDriverByID_ok in G. destruct G as [-> [oid [F Hfind]]].
  pose proof (find_some _ _ Hfind) as [Hin Hid]. apply has_id_true in Hid.
  unfold service.DeleteDriver. rewrite (FromHex_not_empty _ F).
  unfold bind at 1. rewrite (FindByID_wellformed _ w F), Hfind.
  unfold repository.Delete. rewrite (FromHex_not_empty _ F), F.
  unfold Mongo.DeleteOne. step. rewrite Hfind. cbn [Z.eqb].
  eexists. split; [reflexivity|]. cbn [collection]. split; [|split].
  - unfold service.GetDriverByID. rewrite (FromHex_not_empty _ F).
    unfold bind. rewrite (FindByID_wellformed _ _ F). cbn [collection].
    rewrite (@find_remove_first oid _ N). reflexivity.
  - intros other Hne. apply find_remove_first_other. congruence.
  - eapply length_remove_first. exact Hfind.
Qed.

Lemma delete_removes_the_driver_witness :
  exists w',
    service.DeleteDriver Examples.ali_id Examples.two_drivers = (None, w')
    /\ is_ok (fst (service.GetDriverByID Examples.ali_id w')) = false
    /\ List.length (collection w') = 1%nat.
Proof.
  destruct (@delete_removes_the_driver Examples.two_drivers Examples.ali_id
              Examples.ali_stored) as (w' & H1 & H2 & _ & H4).
  - vm_compute. repeat constructor; simpl; intuition discriminate.
  - reflexivity.
  - exists w'. repeat split; try assumption.
    change (List.length (collection Examples.two_drivers)) with 2%nat in H4.
    injection H4 as H4. exact H4.
Defined.

(** ** GetDriverByPlate *)




(** ** What every operation of the service does and never does *)

(** Splits the tests and the matches of the goal into their cases. *)
Ltac cases :=
  repeat (step;
          unfold Mongo.InsertOne, Mongo.UpdateOne, Mongo.FindOne, Mongo.DeleteOne,
            Mongo.CountDocuments, Mongo.Find, Mongo.Aggregate;
          step;
          match goal with
          | |- context [match ?x with _ => _ end] =>
              lazymatch x with
              | context [match _ with _ => _ end] => fail
              | _ => destruct x eqn:?
              end
          end).

Lemma unclassified_Wrapf (text : string) (e : error) :
  unclassified e -> unclassified (Wrapf text e).
Proof. intros H v Hv. exact (H v Hv). Qed.

Lemma unclassified_Errorf (text : string) : unclassified (Errorf text).
Proof. intros v _. reflexivity. Qed.

Lemma unclassified_New (text : string) : unclassified (New text).
Proof. intros v _. reflexivity. Qed.

Lemma unclassified_WriteException (f : mongo_failure) : unclassified (WriteException f).
Proof. intros v _. reflexivity. Qed.

Lemma unclassified_hex (id : string) (e : error) :
  primitive.ObjectIDFromHex id = Err e -> unclassified e.
Proof.
  unfold primitive.ObjectIDFromHex.
  destruct (negb (String.length id =? 24)%nat).
  - intros H. injection H as <-. intros v Hv.
    cbn in Hv. intuition (subst; reflexivity).
  - destruct (GoString.DecodeString id); [discriminate|].
    intros H. injection H as <-. intros v _. reflexivity.
Qed.

Lemma unclassified_validation (fields : list Validator.field) (e : error) :
  Validator.Struct fields = Some e -> unclassified e.
Proof.
  unfold Validator.Struct. destruct (flat_map Validator.field_errors fields);
    [discriminate|]. intros H. injection H as <-. intros v _. reflexivity.
Qed.

Lemma unclassified_NoDocuments : unclassified (Var mongo_ErrNoDocuments).
Proof. intros v Hv. cbn in Hv. intuition (subst; reflexivity). Qed.

Ltac plain :=
  repeat first
    [ exact I
    | apply unclassified_Errorf
    | apply unclassified_New
    | apply unclassified_WriteException
    | apply unclassified_NoDocuments
    | apply unclassified_Wrapf
    | match goal with
      | H : primitive.ObjectIDFromHex _ = Err ?e |- unclassified ?e =>
          exact (unclassified_hex _ H)
      | H : Validator.Struct _ = Some ?e |- unclassified ?e =>
          exact (unclassified_validation _ H)
      end ].

Ltac open_service :=
  unfold service.CreateDriver, service.UpdateDriver, service.GetDriverByID,
    service.ListDrivers, service.FindNearbyDrivers, service.UpdateDriverLocation,
    service.DeleteDriver, service.GetDriverByPlate,
    repository.Create, repository.Update, repository.FindByID, repository.FindAll,
    repository.FindNearby, repository.FindByPlate, repository.Delete,
    repository.ErrDriverNotFound,
    CreateDriverRequest.Validate, UpdateDriverRequest.Validate,
    UpdateLocationRequest.Validate.

(** X8. No error that an operation of the service returns is, or wraps,
    one of the error variables the handlers test for: whatever the input
    and the stored drivers, [errors.Is] is false of it for every error
    variable of the service and for [ErrDriverNotFound] and [ErrInvalidID]
    of the repository. *)
Theorem service_errors_are_unclassified (w : World) :
  (forall req, match fst (service.CreateDriver req w) with
               | Err e => unclassified e | Ok _ => True end)
  /\ (forall id req, match fst (service.UpdateDriver id req w) with
                     | Some e => unclassified e | None => True end)
  /\ (forall id, match fst (service.GetDriverByID id w) with
                 | Err e => unclassified e | Ok _ => True end)
  /\ (forall page pageSize, match fst (service.ListDrivers page pageSize w) with
                            | Err e => unclassified e | Ok _ => True end)
  /\ (forall lat lon taxiType,
        match fst (service.FindNearbyDrivers lat lon taxiType w) with
        | Err e => unclassified e | Ok _ => True end)
  /\ (forall id req, match fst (service.UpdateDriverLocation id req w) with
                     | Some e => unclassified e | None => True end)
  /\ (forall id, match fst (service.DeleteDriver id w) with
                 | Some e => unclassified e | None => True end)
  /\ (forall plate, match fst (service.GetDriverByPlate plate w) with
                    | Err e => unclassified e | Ok _ => True end).
Proof.
  repeat split; intros; open_service; cases; plain.
  all: match goal with H : Is _ _ = false |- _ => discriminate H end.
Qed.

Ltac open_handlers :=
  unfold handlers.CreateDriver, handlers.GetDriver, handlers.UpdateDriver,
    handlers.DeleteDriver, handlers.FindNearbyDrivers, handlers.UpdateDriverLocation,
    handlers.ListDrivers, handlers.isValidObjectID.

Ltac status_answered :=
  unfold answered, handlers.StatusOK, handlers.StatusCreated, handlers.StatusNoContent,
    handlers.StatusBadRequest, handlers.StatusInternalServerError,
    handlers.StatusNotFound, handlers.StatusConflict;
  cbn [In fst snd];
  first [ now left | now (right; left) | now (right; right; left)
        | now (right; right; right; left) | now (right; right; right; right; left) ].

(** X9. Whatever the request and the stored drivers, each handler answers
    200, 201, 204, 400 or 500: the branches that answer 404 (not found) and
    409 (conflict) are never taken. *)
Theorem handlers_never_answer_404_or_409 (w : World) :
  (forall req, answered (fst (handlers.CreateDriver req w)))
  /\ (forall id, answered (fst (handlers.GetDriver id w)))
  /\ (forall id req, answered (fst (handlers.UpdateDriver id req w)))
  /\ (forall id, answered (fst (handlers.DeleteDriver id w)))
  /\ (forall lat lon taxiType,
        answered (fst (handlers.FindNearbyDrivers lat lon taxiType w)))
  /\ (forall id req, answered (fst (handlers.UpdateDriverLocation id req w)))
  /\ (forall pageStr pageSizeStr,
        answered (fst (handlers.ListDrivers pageStr pageSizeStr w))).
Proof.
  repeat split; intros; open_handlers; open_service.
  all: cases.
  all: try status_answered.
Qed.

(** X10. An operation of the service that fails writes nothing: after a
    failed [CreateDriver], [UpdateDriver], [UpdateDriverLocation] or
    [DeleteDriver] the collection is what it was. *)
Theorem failed_write_changes_nothing (w : World) :
  (forall req, match service.CreateDriver req w with
               | (Err _, w') => collection w' = collection w
               | (Ok _, _) => True end)
  /\ (forall id req, match service.UpdateDriver id req w with
                     | (Some _, w') => collection w' = collection w
                     | (None, _) => True end)
  /\ (forall id req, match service.UpdateDriverLocation id req w with
                     | (Some _, w') => collection w' = collection w
                     | (None, _) => True end)
  /\ (forall id, match service.DeleteDriver id w with
                 | (Some _, w') => collection w' = collection w
                 | (None, _) => True end).
Proof.
  repeat split; intros; open_service; cases; try exact I; try reflexivity.
  all: discriminate.
Qed.

(** X11. The reading operations change nothing, and do not read the clock
    or draw an identifier: after [GetDriverByID], [GetDriverByPlate],
    [ListDrivers] and [FindNearbyDrivers] the world is the one before. *)
Theorem reads_change_nothing (w : World) :
  (forall id, snd (service.GetDriverByID id w) = w)
  /\ (forall plate, snd (service.GetDriverByPlate plate w) = w)
  /\ (forall page pageSize, snd (service.ListDrivers page pageSize w) = w)
  /\ (forall lat lon taxiType, snd (service.FindNearbyDrivers lat lon taxiType w) = w).
Proof.
  repeat split; intros; open_service; cases; reflexivity.
Qed.

(** ** What an update never changes *)

Lemma identity_replace_first (oid : ObjectID) (u : Mongo.set_doc) (c : list Driver.t)
      (d : Driver.t) :
  find (Mongo.has_id oid) c = Some d ->
  Mongo.plate u = Driver.Plate d ->
  map identity (Mongo.replace_first oid u c) = map identity c.
Proof.
  induction c as [|x tl IH]; cbn [find Mongo.replace_first]; [discriminate|].
  destruct (Mongo.has_id oid x).
  - intros H P. injection H as <-. cbn [map]. f_equal.
    unfold identity, Mongo.apply_set. cbn. rewrite P. reflexivity.
  - intros H P. cbn [map]. f_equal. apply IH; assumption.
Qed.

(** X12. No update changes who the stored drivers are: whatever the
    identifier, the request and the stored drivers, and whether the call
    succeeds or fails, after [UpdateDriver] and after [UpdateDriverLocation]
    the collection holds the same identifiers, plates and creation times,
    document by document, as before. *)
Theorem updates_keep_identity (w : World) :
  (forall id req,
      map identity (collection (snd (service.UpdateDriver id req w)))
      = map identity (collection w))
  /\ (forall id req,
        map identity (collection (snd (service.UpdateDriverLocation id req w)))
        = map identity (collection w)).
Proof.
  split; intros id req; open_service; cases; try reflexivity.
  all: cbn [snd collection with_collection].
  all: match goal with
       | F : find (Mongo.has_id ?a) _ = Some ?d, E : Some ?d = Some _ |- _ =>
           injection E as <-; eapply identity_replace_first; [exact F|];
           cbn [Mongo.plate]
       end.
  all: try reflexivity.
  all: apply merge_keeps.
Qed.

(** ** The pages of ListDrivers *)

Lemma length_take_exact (A : Type) (n : Z) (l : list A) :
  Z.of_nat (List.length (take n l)) = Z.max 0 (Z.min n (Z.of_nat (List.length l))).
Proof.
  revert n. induction l as [|x tl IH]; intros n.
  - simpl. lia.
  - cbn [take]. destruct (n <=? 0)%Z eqn:E.
    + apply Z.leb_le in E. cbn [List.length]. lia.
    + apply Z.leb_gt in E. cbn [List.length]. rewrite !Nat2Z.inj_succ, IH. lia.
Qed.

Lemma length_drop_exact (A : Type) (n : Z) (l : list A) :
  Z.of_nat (List.length (drop n l)) = Z.max 0 (Z.of_nat (List.length l) - Z.max 0 n).
Proof.
  revert n. induction l as [|x tl IH]; intros n.
  - simpl. lia.
  - cbn [drop]. destruct (n <=? 0)%Z eqn:E.
    + apply Z.leb_le in E. cbn [List.length]. lia.
    + apply Z.leb_gt in E. rewrite IH. cbn [List.length]. rewrite Nat2Z.inj_succ. lia.
Qed.

Lemma nth_error_drop (A : Type) (n : Z) (l : list A) (j : nat) :
  (0 <= n)%Z -> nth_error (drop n l) j = nth_error l (Z.to_nat n + j).
Proof.
  revert n. induction l as [|x tl IH]; intros n Hn.
  - simpl. destruct j, (Z.to_nat n + _)%nat; reflexivity.
  - cbn [drop]. destruct (n <=? 0)%Z eqn:E.
    + apply Z.leb_le in E. replace n with 0%Z by lia. reflexivity.
    + apply Z.leb_gt in E. rewrite IH by lia.
      replace (Z.to_nat n) with (S (Z.to_nat (n - 1))) by lia. reflexivity.
Qed.

Lemma nth_error_take (A : Type) (n : Z) (l : list A) (j : nat) :
  (Z.of_nat j < n)%Z -> nth_error (take n l) j = nth_error l j.
Proof.
  revert n j. induction l as [|x tl IH]; intros n j Hj.
  - reflexivity.
  - cbn [take]. destruct (n <=? 0)%Z eqn:E.
    + apply Z.leb_le in E. lia.
    + destruct j as [|j]; [reflexivity|]. cbn [nth_error]. apply IH. lia.
Qed.

(** X13. When the offset of the page fits an [int], the page has as many
    drivers as the page size in use allows and the collection still has
    from the page's offset on, and none once the offset reaches the number
    of stored drivers; the total count is that number whatever the page. *)
Theorem page_length (w : World) (page pageSize : Z) :
  ((page - 1) * 100 <= GoInt.max_int)%Z ->
  exists r,
    service.ListDrivers page pageSize w = (Ok r, w)
    /\ PaginatedResponse.TotalCount r = Z.of_nat (List.length (collection w))
    /\ Z.of_nat (List.length (PaginatedResponse.Data r))
       = Z.max 0 (Z.min (PaginatedResponse.PageSize r)
                    (PaginatedResponse.TotalCount r
                     - (PaginatedResponse.Page r - 1) * PaginatedResponse.PageSize r))
    /\ ((PaginatedResponse.TotalCount r
         <= (PaginatedResponse.Page r - 1) * PaginatedResponse.PageSize r)%Z ->
        PaginatedResponse.Data r = []).
Proof.
  intros Hfit.
  set (s := if (pageSize <? 1)%Z then 10%Z else Z.min 100 pageSize).
  assert (Hs : (1 <= s <= 100)%Z).
  { unfold s. destruct (pageSize <? 1)%Z eqn:E; [lia|]. apply Z.ltb_ge in E. lia. }
  assert (Hfit' : ((Z.max 1 page - 1) * s <= GoInt.max_int)%Z).
  { unfold GoInt.max_int in *. nia. }
  destruct (@ListDrivers_page w page pageSize Hfit') as [tp H]. fold s in H.
  eexists. split; [exact H|].
  cbn [PaginatedResponse.TotalCount PaginatedResponse.Data PaginatedResponse.Page
       PaginatedResponse.PageSize].
  split; [reflexivity|]. split.
  - rewrite length_take_exact, length_drop_exact, length_sort_by. nia.
  - intros Hbeyond. rewrite drop_all; [reflexivity|]. rewrite length_sort_by. exact Hbeyond.
Qed.

Lemma page_length_witness :
  exists r,
    service.ListDrivers 2 1 Examples.two_drivers = (Ok r, Examples.two_drivers)
    /\ PaginatedResponse.TotalCount r = 2%Z
    /\ List.length (PaginatedResponse.Data r) = 1%nat.
Proof.
  destruct (@page_length Examples.two_drivers 2 1) as (r & H1 & H2 & H3 & _).
  - vm_compute. discriminate.
  - exists r. split; [exact H1|]. split; [exact H2|].
    vm_compute in H1. injection H1 as <-. reflexivity.
Defined.

(** When no two documents are created at the same time, the order of a
    sorted [Find] is the order by creation time, whatever the store does
    with equal keys. *)
Lemma insert_by_agree (A : Type) (le le' : A -> A -> bool) (x : A) (l : list A) :
  (forall y, In y l -> le x y = le' x y) -> insert_by le x l = insert_by le' x l.
Proof.
  induction l as [|z tl IH]; intros H; simpl; [reflexivity|].
  rewrite (H z) by (left; reflexivity).
  rewrite IH by (intros y Hy; apply H; right; exact Hy). reflexivity.
Qed.

Lemma distinct_times_fix_the_order (ties : Driver.t -> Driver.t -> bool)
      (c : list Driver.t) :
  NoDup (map Driver.CreatedAt c) ->
  sort_by (Mongo.find_order ties) c = sort_by Mongo.newer_first c.
Proof.
  induction c as [|x tl IH]; intros N; [reflexivity|].
  inversion N as [|? ? Hx Htl]; subst. cbn [sort_by fold_right].
  fold (sort_by (Mongo.find_order ties) tl). fold (sort_by Mongo.newer_first tl).
  rewrite (IH Htl). apply insert_by_agree. intros y Hy.
  apply (proj1 (In_sort_by _ _ _)) in Hy. unfold Mongo.find_order.
  destruct (Driver.CreatedAt x =? Driver.CreatedAt y)%Z eqn:E; [|reflexivity].
  apply Z.eqb_eq in E. exfalso. apply Hx. rewrite E. apply in_map, Hy.
Qed.

(** X14. Paging loses no driver when no two stored drivers have the same
    creation time: if moreover the number of stored drivers times 100 fits
    an [int], the driver at position [i] of the drivers ordered by creation
    time, newest first, is on page [i / size + 1] at position [i mod size],
    for the page size in use, whatever the store does with equal sort
    keys. *)
Theorem every_driver_is_on_its_page (w : World) (pageSize : Z) (i : nat) (d : Driver.t) :
  NoDup (map Driver.CreatedAt (collection w)) ->
  (Z.of_nat (List.length (collection w)) * 100 <= GoInt.max_int)%Z ->
  nth_error (sort_by Mongo.newer_first (collection w)) i = Some d ->
  let size := if (pageSize <? 1)%Z then 10%Z else Z.min 100 pageSize in
  exists r,
    service.ListDrivers (Z.of_nat i / size + 1) pageSize w = (Ok r, w)
    /\ PaginatedResponse.PageSize r = size
    /\ nth_error (PaginatedResponse.Data r) (Z.to_nat (Z.of_nat i mod size)) = Some d.
Proof.
  intros Hdistinct Hsmall Hi size.
  assert (Hs : (1 <= size <= 100)%Z).
  { unfold size. destruct (pageSize <? 1)%Z eqn:E; [lia|]. apply Z.ltb_ge in E. lia. }
  assert (Hlen : (Z.of_nat i < Z.of_nat (List.length (collection w)))%Z).
  { apply Nat2Z.inj_lt. rewrite <- (length_sort_by Mongo.newer_first).
    apply nth_error_Some. congruence. }
  pose proof (Z.div_pos (Z.of_nat i) size ltac:(lia) ltac:(lia)) as Hq.
  pose proof (Z.mul_div_le (Z.of_nat i) size ltac:(lia)) as Hqs.
  pose proof (Z.mod_pos_bound (Z.of_nat i) size ltac:(lia)) as Hm.
  pose proof (Z.div_mod (Z.of_nat i) size ltac:(lia)) as Hdm.
  assert (Hpage : Z.max 1 (Z.of_nat i / size + 1) = (Z.of_nat i / size + 1)%Z) by lia.
  assert (Hfit : ((Z.max 1 (Z.of_nat i / size + 1) - 1) * size <= GoInt.max_int)%Z).
  { rewrite Hpage. unfold GoInt.max_int in *. nia. }
  destruct (@ListDrivers_page w (Z.of_nat i / size + 1) pageSize Hfit) as [tp H].
  fold size in H. rewrite Hpage in H.
  rewrite (@distinct_times_fix_the_order _ _ Hdistinct) in H.
  eexists. split; [exact H|].
  cbn [PaginatedResponse.Data PaginatedResponse.PageSize].
  split; [reflexivity|].
  rewrite nth_error_take by lia.
  rewrite nth_error_drop by lia.
  rewrite <- Hi. f_equal. lia.
Qed.

Lemma every_driver_is_on_its_page_witness :
  exists r,
    service.ListDrivers 2 1 Examples.two_drivers = (Ok r, Examples.two_drivers)
    /\ option_map Driver.Plate (nth_error (PaginatedResponse.Data r) 0)
       = Some "34ABC123"%string.
Proof.
  destruct (@every_driver_is_on_its_page Examples.two_drivers 1 1 Examples.ali_stored)
    as (r & H1 & _ & H3).
  - vm_compute. constructor; [intros [H|[]]; discriminate H|].
    constructor; [intros []|constructor].
  - vm_compute. discriminate.
  - vm_compute. reflexivity.
  - exists r. split; [exact H1|].
    change (nth_error (PaginatedResponse.Data r) 0 = Some Examples.ali_stored) in H3.
    rewrite H3. reflexivity.
Defined.

(** ** The query values of the ListDrivers handler *)

Lemma Atoi_range (s : string) (v : Z) :
  strconv.Atoi s = Some v -> (GoInt.min_int <= v <= GoInt.max_int)%Z.
Proof.
  unfold strconv.Atoi.
  destruct (match s with
            | String "-"%char tl => (true, tl)
            | String "+"%char tl => (false, tl)
            | _ => (false, s)
            end) as [neg body].
  destruct body as [|c tl]; [discriminate|].
  destruct (strconv.digits 0 (String c tl)) as [n|]; [|discriminate].
  destruct ((GoInt.min_int <=? (if neg then - n else n))
            && ((if neg then - n else n) <=? GoInt.max_int))%Z eqn:E; [|discriminate].
  intros H. injection H as <-.
  apply andb_true_iff in E. destruct E as [E1 E2].
  apply Z.leb_le in E1, E2. split; assumption.
Qed.

(** X15. Whatever the query holds, the [ListDrivers] handler asks the
    service for a page of at least 1 that an [int] holds and for a page
    size from 1 to 100: with no values it asks for page 1 and size 20, and
    the service lists with exactly the page and the size it is asked
    for. *)
Theorem list_handler_parameters (pageStr pageSizeStr : string) (w : World) :
  (1 <= fst (handlers.ListDrivers_params pageStr pageSizeStr) <= GoInt.max_int)%Z
  /\ (1 <= snd (handlers.ListDrivers_params pageStr pageSizeStr) <= 100)%Z
  /\ handlers.ListDrivers_params "" "" = (1, 20)%Z
  /\ match fst (service.ListDrivers
                  (fst (handlers.ListDrivers_params pageStr pageSizeStr))
                  (snd (handlers.ListDrivers_params pageStr pageSizeStr)) w) with
     | Ok r =>
         PaginatedResponse.Page r
         = fst (handlers.ListDrivers_params pageStr pageSizeStr)
         /\ PaginatedResponse.PageSize r
            = snd (handlers.ListDrivers_params pageStr pageSizeStr)
     | Err _ => True
     end.
Proof.
  assert (P : (1 <= fst (handlers.ListDrivers_params pageStr pageSizeStr)
               <= GoInt.max_int)%Z).
  { unfold handlers.ListDrivers_params. cbn [fst].
    destruct (String.eqb pageStr ""); [unfold GoInt.max_int; lia|].
    destruct (strconv.Atoi pageStr) as [p|] eqn:E; [|unfold GoInt.max_int; lia].
    apply Atoi_range in E.
    destruct (0 <? p)%Z eqn:F; [apply Z.ltb_lt in F; lia | unfold GoInt.max_int; lia]. }
  assert (S : (1 <= snd (handlers.ListDrivers_params pageStr pageSizeStr) <= 100)%Z).
  { unfold handlers.ListDrivers_params. cbn [snd].
    destruct (String.eqb pageSizeStr ""); [lia|].
    destruct (strconv.Atoi pageSizeStr) as [ps|]; [|lia].
    destruct (0 <? ps)%Z eqn:F; [apply Z.ltb_lt in F | lia].
    destruct (100 <? ps)%Z eqn:G; [lia | apply Z.ltb_ge in G; lia]. }
  split; [exact P|]. split; [exact S|]. split; [reflexivity|].
  set (p := fst (handlers.ListDrivers_params pageStr pageSizeStr)) in *.
  set (s := snd (handlers.ListDrivers_params pageStr pageSizeStr)) in *.
  unfold service.ListDrivers.
  assert (I1 : (if (p <? 1)%Z then 1%Z else p) = p).
  { destruct (p <? 1)%Z eqn:E; [apply Z.ltb_lt in E; lia | reflexivity]. }
  assert (I2 : (if (s <? 1)%Z then 10%Z else s) = s).
  { destruct (s <? 1)%Z eqn:E; [apply Z.ltb_lt in E; lia | reflexivity]. }
  assert (I3 : (if (100 <? s)%Z then 100%Z else s) = s).
  { destruct (100 <? s)%Z eqn:E; [apply Z.ltb_lt in E; lia | reflexivity]. }
  rewrite I1, I2, I3. unfold bind.
  destruct (repository.FindAll p s w) as [[[drivers totalCount]|e] w']; cbn; auto.
Qed.

(** ** The configuration *)

(** X16. [LoadConfig] returns a configuration in which no field is empty,
    each field being the value of its variable where the environment sets
    it and the default where it does not; it panics only when the
    environment sets one of the three variables to the empty text. *)
Theorem LoadConfig_outcome (env : config.Env) :
  match config.LoadConfig env with
  | config.Returns c =>
      config.MongoDBURI c <> ""%string
      /\ config.MongoDBDatabase c <> ""%string
      /\ config.ServerPort c <> ""%string
      /\ config.MongoDBURI c
         = config.getEnv env "MONGODB_URI" "mongodb://localhost:27017"
      /\ config.MongoDBDatabase c = config.getEnv env "MONGODB_DATABASE" "taxihub"
      /\ config.ServerPort c = config.getEnv env "SERVER_PORT" "9000"
      /\ config.GetServerAddress c <> ":"%string
  | config.Panics _ =>
      env "MONGODB_URI"%string = Some ""%string
      \/ env "MONGODB_DATABASE"%string = Some ""%string
      \/ env "SERVER_PORT"%string = Some ""%string
  end.
Proof.
  unfold config.LoadConfig, config.getEnv, config.GetServerAddress.
  cbn [config.MongoDBURI config.MongoDBDatabase config.ServerPort].
  destruct (env "MONGODB_URI"%string) as [uri|] eqn:E1;
    destruct (env "MONGODB_DATABASE"%string) as [db|] eqn:E2;
    destruct (env "SERVER_PORT"%string) as [port|] eqn:E3;
    repeat match goal with
           | |- context [String.eqb ?a ""] =>
               let F := fresh "F" in
               destruct (String.eqb a "") eqn:F;
               [apply String.eqb_eq in F | apply String.eqb_neq in F]
           end;
    cbn [config.MongoDBURI config.MongoDBDatabase config.ServerPort];
    subst; auto 10; try discriminate;
    repeat split; try assumption; try discriminate; try reflexivity;
    try (intros H; injection H as H; contradiction).
Qed.

(** ** The category filter of FindNearbyDrivers *)

Lemma take_all (A : Type) (n : Z) (l : list A) :
  (Z.of_nat (List.length l) <= n)%Z -> take n l = l.
Proof.
  revert n. induction l as [|x tl IH]; intros n H; [reflexivity|].
  cbn [take]. cbn [List.length] in H. rewrite Nat2Z.inj_succ in H.
  destruct (n <=? 0)%Z eqn:E; [apply Z.leb_le in E; lia|].
  rewrite IH by lia. reflexivity.
Qed.

Lemma take_short (A : Type) (n : Z) (l : list A) :
  (Z.of_nat (List.length (take n l)) < n)%Z -> take n l = l.
Proof.
  intros H. apply take_all. rewrite length_take_exact in H. lia.
Qed.

(** X17. With a valid taxi category, [FindNearbyDrivers] on a point of the
    range returns only drivers of that category; and when it returns fewer
    than 50 entries it leaves out no stored driver of the category that
    the store measures within 5000 metres of the point, the distance being
    the one to the point the store takes the driver's location for. *)
Theorem nearby_category_filter (w : World) (lat lon : float) (taxiType : string) :
  (-90 <=? lat)%float = true -> (lat <=? 90)%float = true ->
  (-180 <=? lon)%float = true -> (lon <=? 180)%float = true ->
  models.IsValidTaxiType taxiType = true ->
  exists res,
    service.FindNearbyDrivers lat lon taxiType w = (Ok res, w)
    /\ (forall e, In e res ->
          Driver.TaxiType (DriverWithDistance.Driver e) = taxiType)
    /\ ((List.length res < 50)%nat ->
        forall d, In d (collection w) ->
                  Driver.TaxiType d = taxiType ->
                  (geo_distance w (Point lon lat) (Mongo.position (Driver.Location d))
                   <=? 5000)%float = true ->
                  In d (map DriverWithDistance.Driver res)).
Proof.
  intros lat_lo lat_hi lon_lo lon_hi Hvalid.
  destruct (FindNearby_runs w lat_lo lat_hi lon_lo lon_hi taxiType)
    as [docs [Hstages Hrepo]].
  destruct (in_range_passes lat_lo lat_hi lon_lo lon_hi) as [E1 E2].
  assert (Hne : String.eqb taxiType "" = false).
  { destruct (String.eqb taxiType "") eqn:E; [|reflexivity].
    apply String.eqb_eq in E. subst. discriminate Hvalid. }
  unfold nearby_stages in Hstages. rewrite Hne, Hvalid in Hstages.
  cbn in Hstages. injection Hstages as Hdocs.
  eexists. split.
  { unfold service.FindNearbyDrivers. rewrite E1, E2, Hne, Hvalid.
    cbn [negb andb]. unfold bind. rewrite Hrepo. reflexivity. }
  split.
  - intros e He. apply in_map_iff in He. destruct He as [p [<- Hp]].
    rewrite <- Hdocs in Hp. apply In_take in Hp. apply filter_In in Hp.
    destruct Hp as [_ Hp]. apply String.eqb_eq in Hp. exact Hp.
  - intros Hlen d Hd Htaxi Hnear.
    rewrite length_map in Hlen. rewrite map_map. cbn [DriverWithDistance.Driver].
    apply in_map_iff.
    exists (d, geo_distance w (Point lon lat) (Mongo.position (Driver.Location d))).
    split; [reflexivity|].
    rewrite <- Hdocs in *.
    rewrite take_short by (apply (proj1 (Nat2Z.inj_lt _ 50)); exact Hlen).
    apply filter_In. split; [|apply String.eqb_eq; exact Htaxi].
    unfold Mongo.run_geoNear. apply In_sort_by. apply filter_In. split; [|exact Hnear].
    apply in_map_iff. exists d. split; [reflexivity | exact Hd].
Qed.

Lemma nearby_category_filter_witness :
  exists res,
    service.FindNearbyDrivers 29 41 "siyah" Examples.two_drivers
    = (Ok res, Examples.two_drivers)
    /\ map (fun e => Driver.Plate (DriverWithDistance.Driver e)) res
       = ["06XYZ456"%string].
Proof.
  destruct (@nearby_category_filter Examples.two_drivers 29 41 "siyah")
    as (res & H1 & _); try reflexivity.
  exists res. split; [exact H1|].
  apply (f_equal fst) in H1. vm_compute in H1. injection H1 as <-. reflexivity.
Defined.

(** ** What GetDriver and DeleteDriver answer *)

(** X18. The [GetDriver] handler answers 400 when the identifier is not 24
    hexadecimal digits, 200 when a stored driver has it and 500 when none
    has; the [DeleteDriver] handler answers 400, 204 and 500 in the same
    three cases, and removes a document only when it answers 204. *)
Theorem get_and_delete_answers (id : string) (w : World) :
  fst (handlers.GetDriver id w)
  = match primitive.ObjectIDFromHex id with
    | Err _ => 400%Z
    | Ok oid => if existsb (Mongo.has_id oid) (collection w) then 200%Z else 500%Z
    end
  /\ fst (handlers.DeleteDriver id w)
     = match primitive.ObjectIDFromHex id with
       | Err _ => 400%Z
       | Ok oid => if existsb (Mongo.has_id oid) (collection w) then 204%Z else 500%Z
       end
  /\ (fst (handlers.DeleteDriver id w) <> 204%Z ->
      collection (snd (handlers.DeleteDriver id w)) = collection w).
Proof.
  assert (X : forall oid, existsb (Mongo.has_id oid) (collection w)
                          = match find (Mongo.has_id oid) (collection w) with
                            | Some _ => true | None => false end).
  { intros oid. induction (collection w) as [|x tl IH]; simpl; [reflexivity|].
    destruct (Mongo.has_id oid x); [reflexivity | exact IH]. }
  unfold handlers.GetDriver, handlers.DeleteDriver, handlers.isValidObjectID.
  destruct (primitive.ObjectIDFromHex id) as [oid|e] eqn:F; cbn [is_ok negb].
  - rewrite X.
    unfold service.GetDriverByID, service.DeleteDriver, repository.Delete.
    rewrite (FromHex_not_empty _ F), F. unfold bind.
    rewrite (FindByID_wellformed _ w F).
    unfold Mongo.DeleteOne.
    destruct (find (Mongo.has_id oid) (collection w)) eqn:G; cbn.
    + rewrite G. cbn. repeat split. intros H. contradiction H. reflexivity.
    + repeat split.
  - repeat split.
Qed.

(** ** Create and Update of the repository *)



(** X20. [Update] of the repository writes the plate it is given: on the
    identifier of a stored driver and with the plate of another stored
    driver it fails with the text of an existing plate and changes
    nothing. *)
Theorem repository_Update_plate_collision (w : World) (id : string) (oid : ObjectID)
        (d other driver : Driver.t) :
  primitive.ObjectIDFromHex id = Ok oid ->
  find (Mongo.has_id oid) (collection w) = Some d ->
  In other (collection w) ->
  Driver.ID other <> oid ->
  Driver.Plate driver = Driver.Plate other ->
  exists w',
    repository.Update id (Some driver) w
    = (Some (Errorf ("driver with plate " ++ Driver.Plate driver ++ " already exists")),
       w')
    /\ collection w' = collection w.
Proof.
  intros F Hfind Hin Hid Hp.
  unfold repository.Update. rewrite (FromHex_not_empty _ F), F.
  unfold Mongo.UpdateOne. step. rewrite Hfind. cbn [Mongo.plate].
  assert (E : existsb (fun x => negb (Mongo.has_id oid x)
                                && Mongo.has_plate (Driver.Plate driver) x)
                      (collection w) = true).
  { apply existsb_exists. exists other. split; [exact Hin|].
    apply andb_true_iff. split.
    - apply negb_true_iff. apply has_id_false. exact Hid.
    - apply has_plate_true. symmetry. exact Hp. }
  rewrite E. cbn [IsDuplicateKeyError]. eexists. split; reflexivity.
Qed.

Lemma repository_Update_plate_collision_witness :
  exists w',
    repository.Update Examples.ali_id
      (Some (Driver.set_Plate "06XYZ456" Examples.ali_stored))
      Examples.two_drivers
    = (Some (Errorf "driver with plate 06XYZ456 already exists"), w')
    /\ collection w' = collection Examples.two_drivers.
Proof.
  apply (@repository_Update_plate_collision Examples.two_drivers Examples.ali_id
           (Examples.oid_of_nat 0) Examples.ali_stored
           (Driver.mk (Examples.oid_of_nat 1) "Can" "Kaya" "06XYZ456" "siyah"
                      "Renault" "Clio" (Location.mk 41.03125 29)
                      1700000000128000000%Z 1700000000128000000%Z)
           (Driver.set_Plate "06XYZ456" Examples.ali_stored)).
  - vm_compute. reflexivity.
  - vm_compute. reflexivity.
  - vm_compute. right. left. reflexivity.
  - vm_compute. discriminate.
  - vm_compute. reflexivity.
Defined.

(** ** HandleServiceErrors on the errors of the service *)

Lemma unclassified_is_internal (e : error) :
  unclassified e -> handlers.HandleServiceErrors e = handlers.StatusInternalServerError.
Proof.
  intros H. unfold handlers.HandleServiceErrors.
  rewrite !H by (cbn; tauto). reflexivity.
Qed.

(** X21. [HandleServiceErrors] answers 500 to every error an operation of
    the service returns, whatever the input and the stored drivers: none
    of its six cases for a not found driver, an existing driver, an
    invalid identifier or a failed validation matches such an error. *)
Theorem HandleServiceErrors_answers_500 (w : World) :
  (forall req, match fst (service.CreateDriver req w) with
               | Err e => handlers.HandleServiceErrors e = 500%Z
               | Ok _ => True end)
  /\ (forall id req, match fst (service.UpdateDriver id req w) with
                     | Some e => handlers.HandleServiceErrors e = 500%Z
                     | None => True end)
  /\ (forall id, match fst (service.GetDriverByID id w) with
                 | Err e => handlers.HandleServiceErrors e = 500%Z
                 | Ok _ => True end)
  /\ (forall page pageSize, match fst (service.ListDrivers page pageSize w) with
                            | Err e => handlers.HandleServiceErrors e = 500%Z
                            | Ok _ => True end)
  /\ (forall lat lon taxiType,
        match fst (service.FindNearbyDrivers lat lon taxiType w) with
        | Err e => handlers.HandleServiceErrors e = 500%Z
        | Ok _ => True end)
  /\ (forall id req, match fst (service.UpdateDriverLocation id req w) with
                     | Some e => handlers.HandleServiceErrors e = 500%Z
                     | None => True end)
  /\ (forall id, match fst (service.DeleteDriver id w) with
                 | Some e => handlers.HandleServiceErrors e = 500%Z
                 | None => True end)
  /\ (forall plate, match fst (service.GetDriverByPlate plate w) with
                    | Err e => handlers.HandleServiceErrors e = 500%Z
                    | Ok _ => True end).
Proof.
  repeat split; intros; open_service; cases;
    try exact I;
    try (apply unclassified_is_internal; plain).
  all: match goal with H : Is _ _ = false |- _ => discriminate H end.
Qed.

(** ** The entries of FindNearbyDrivers, as the store measures them *)

(** X22. On a point of the range and an empty or valid taxi category,
    [FindNearbyDrivers] answers what [FindNearby] answers for the radius 5:
    at most 50 entries; each is a stored driver that the store measures
    within 5000 metres of the point, and carries that distance divided by
    1000; and the entries stand by ascending measured distance. The
    distance is the one the store measures to the point it takes the
    driver's location for. *)
Theorem nearby_entries_as_measured (w : World) (lat lon : float) (taxiType : string) :
  (-90 <=? lat)%float = true -> (lat <=? 90)%float = true ->
  (-180 <=? lon)%float = true -> (lon <=? 180)%float = true ->
  taxiType = ""%string \/ models.IsValidTaxiType taxiType = true ->
  exists res,
    service.FindNearbyDrivers lat lon taxiType w = (Ok res, w)
    /\ repository.FindNearby lat lon 5 taxiType w = (Ok res, w)
    /\ (List.length res <= 50)%nat
    /\ (forall e, In e res ->
          In (DriverWithDistance.Driver e) (collection w)
          /\ (metres_from w lat lon e <=? 5000)%float = true
          /\ DriverWithDistance.DistanceKm e = (metres_from w lat lon e / 1000)%float)
    /\ StronglySorted
         (fun a b => (metres_from w lat lon a <=? metres_from w lat lon b)%float = true)
         res.
Proof.
  intros lat_lo lat_hi lon_lo lon_hi Htaxi.
  destruct (FindNearby_runs w lat_lo lat_hi lon_lo lon_hi taxiType)
    as [docs [Hstages Hrepo]].
  destruct (in_range_passes lat_lo lat_hi lon_lo lon_hi) as [E1 E2].
  pose proof (run_stages_sub _ _ Hstages) as [Hsub Hsorted].
  specialize (Hsorted (run_geoNear_sorted w (Point lon lat) 5000)).
  assert (Hhit : forall p, In p docs -> geo_hit w (Point lon lat) 5000 p).
  { intros p Hp. apply run_geoNear_hits, Hsub, Hp. }
  set (res := map (fun result => DriverWithDistance.mk (fst result)
                                   (snd result / 1000)%float) docs) in *.
  exists res. split; [|split; [exact Hrepo|]].
  { unfold service.FindNearbyDrivers. rewrite E1, E2.
    assert (T : negb (String.eqb taxiType "") && negb (models.IsValidTaxiType taxiType)
                = false).
    { destruct Htaxi as [-> | ->]; [reflexivity | apply andb_false_r]. }
    rewrite T. unfold bind. rewrite Hrepo. reflexivity. }
  split.
  { unfold res. rewrite length_map.
    unfold nearby_stages in Hstages.
    destruct (negb (String.eqb taxiType "") && models.IsValidTaxiType taxiType);
      cbn in Hstages; injection Hstages as <-.
    all: match goal with
         | |- (List.length (take 50 ?l) <= 50)%nat =>
             let L := fresh in
             assert (L : (0 <= 50)%Z) by lia;
             apply (@length_take _ 50 l) in L;
             apply Nat2Z.inj_le; exact L
         end. }
  split.
  { intros e He. apply in_map_iff in He. destruct He as [p [<- Hp]].
    destruct (Hhit p Hp) as [H1 [H2 H3]]. unfold metres_from. cbn.
    rewrite <- H2. auto. }
  apply map_sorted. eapply sorted_weaken; [|exact Hsorted].
  intros x y Hx Hy Hxy. unfold metres_from. cbn.
  destruct (Hhit x Hx) as [_ [<- _]]. destruct (Hhit y Hy) as [_ [<- _]]. exact Hxy.
Qed.

Lemma nearby_entries_as_measured_witness :
  exists res,
    service.FindNearbyDrivers 29 41 "" Examples.two_drivers
    = (Ok res, Examples.two_drivers)
    /\ (List.length res <= 50)%nat
    /\ map DriverWithDistance.DistanceKm res = [0; 3.46875]%float.
Proof.
  destruct (@nearby_entries_as_measured Examples.two_drivers 29 41 "")
    as (res & H1 & _ & H3 & _); try reflexivity.
  - left. reflexivity.
  - exists res. split; [exact H1|]. split; [exact H3|].
    apply (f_equal fst) in H1. vm_compute in H1. injection H1 as <-. reflexivity.
Defined.
